(** * OpenSpectra tools: regions of interest, band statistics, export, histograms

    A shallow embedding of [openspectra/openspecrtra_tools.py].  Python
    objects become records, methods become functions that take the object
    and return the updated one, and a raised exception is the [Raise] case
    of [result].  NumPy's float64 is IEEE 754 binary64, here Stdlib's
    [spec_float] with precision 53 and maximal exponent 1024. *)

From Stdlib Require Import ZArith String Ascii Bool Lia SpecFloat DecimalString List.
Import ListNotations.
Local Open Scope string_scope.
Local Open Scope Z_scope.

(** ** Exceptions and results *)

Inductive exn : Type :=
| ValueError (msg : string)
| TypeError (msg : string)
| AttributeError (msg : string)
| IndexError (msg : string)
| StopIteration.

Inductive result (A : Type) : Type :=
| Ok (a : A)
| Raise (e : exn).
Arguments Ok {A} a.
Arguments Raise {A} e.

Definition bind {A B : Type} (r : result A) (k : A -> result B) : result B :=
  match r with
  | Ok a => k a
  | Raise e => Raise e
  end.

Notation "x <- r ;; k" := (bind r (fun x => k))
  (at level 61, r at next level, right associativity).

Definition succeeds {A : Type} (r : result A) : bool :=
  match r with Ok _ => true | Raise _ => false end.

(** ** float64 *)

Module Float64.

Definition t : Type := spec_float.

Definition prec : Z := 53.
Definition emax : Z := 1024.

Definition nan : t := S754_nan.
Definition inf : t := S754_infinity false.

(** [m * 2^e], rounded to nearest even. *)
Definition ldexp (m e : Z) : t := binary_normalize prec emax m e false.
Definition of_Z (z : Z) : t := ldexp z 0.

Definition add : t -> t -> t := SFadd prec emax.
Definition sub : t -> t -> t := SFsub prec emax.
Definition mul : t -> t -> t := SFmul prec emax.
Definition div : t -> t -> t := SFdiv prec emax.

Definition eqb : t -> t -> bool := SFeqb.
Definition ltb : t -> t -> bool := SFltb.
Definition leb : t -> t -> bool := SFleb.
Definition gtb (x y : t) : bool := SFltb y x.
Definition geb (x y : t) : bool := SFleb y x.

Definition isnan (x : t) : bool :=
  match x with S754_nan => true | _ => false end.

Definition isfinite (x : t) : bool :=
  match x with
  | S754_zero _ | S754_finite _ _ _ => true
  | S754_infinity _ | S754_nan => false
  end.

(** The integer part of a finite value, rounded toward minus infinity
    ([Z.shiftl] by a negative amount is a flooring right shift). *)
Definition floorZ (s : bool) (m : positive) (e : Z) : Z :=
  Z.shiftl (cond_Zopp s (Zpos m)) e.

(** The integer part of a finite value, rounded toward zero. *)
Definition truncZ (s : bool) (m : positive) (e : Z) : Z :=
  cond_Zopp s (Z.shiftl (Zpos m) e).

(** [np.floor] on one element: a value without fractional bits, an
    infinity, a zero and NaN are returned as they are. *)
Definition floor (x : t) : t :=
  match x with
  | S754_finite s m e => if e <? 0 then of_Z (floorZ s m e) else x
  | _ => x
  end.

End Float64.

Definition float64 : Type := Float64.t.

(** ** float32 *)

(** IEEE 754 binary32: precision 24, maximal exponent 128.  A float32
    value is held as the [spec_float] of the same value. *)
Module Float32.

Definition prec : Z := 24.
Definition emax : Z := 128.

(** The float32 nearest to a float64, ties to even; a value beyond the
    float32 range becomes an infinity. *)
Definition of_float64 (x : float64) : float64 :=
  match x with
  | S754_finite s m e =>
      binary_normalize prec emax (if s then Zneg m else Zpos m) e s
  | _ => x
  end.

Definition div : float64 -> float64 -> float64 := SFdiv prec emax.

End Float32.

(** ** NumPy arrays *)

Inductive np_dtype : Type :=
| np_bool
| np_int8 | np_int16 | np_int32 | np_int64
| np_uint8 | np_uint16 | np_uint32 | np_uint64
| np_float32 | np_float64
| np_complex64 | np_complex128
| np_object.

Definition dtype_eqb (a b : np_dtype) : bool :=
  match a, b with
  | np_bool, np_bool
  | np_int8, np_int8 | np_int16, np_int16 | np_int32, np_int32 | np_int64, np_int64
  | np_uint8, np_uint8 | np_uint16, np_uint16 | np_uint32, np_uint32
  | np_uint64, np_uint64
  | np_float32, np_float32 | np_float64, np_float64
  | np_complex64, np_complex64 | np_complex128, np_complex128
  | np_object, np_object => true
  | _, _ => false
  end.

(** [str(dtype)] *)
Definition dtype_name (d : np_dtype) : string :=
  match d with
  | np_bool => "bool"
  | np_int8 => "int8" | np_int16 => "int16" | np_int32 => "int32" | np_int64 => "int64"
  | np_uint8 => "uint8" | np_uint16 => "uint16" | np_uint32 => "uint32"
  | np_uint64 => "uint64"
  | np_float32 => "float32" | np_float64 => "float64"
  | np_complex64 => "complex64" | np_complex128 => "complex128"
  | np_object => "object"
  end.

(** [dtype in types]: Python's [in] on a tuple of types. *)
Definition dtype_in (d : np_dtype) (types : list np_dtype) : bool :=
  existsb (dtype_eqb d) types.

(** One element of an array: an integer of the array's integer type or a
    floating-point value, held as the float64 of the same value. *)
Inductive scalar : Type :=
| SInt (z : Z)
| SFloat (x : float64).

(** The element as float64, as NumPy converts an integer element that
    meets a float in an arithmetic operation or a comparison. *)
Definition to_float (s : scalar) : float64 :=
  match s with
  | SInt z => Float64.of_Z z
  | SFloat x => x
  end.

(** An array: its element type, its shape, its elements in row-major
    order, and the mask of a [numpy.ma] masked array ([None] for a plain
    array, otherwise one flag per element, [true] for a masked one). *)
Record ndarray : Type := mk_ndarray {
  dtype : np_dtype;
  shape : list nat;
  data : list scalar;
  mask : option (list bool)
}.

Definition size (a : ndarray) : nat := fold_right Nat.mul 1%nat (shape a).

(** The buffer holds exactly the elements the shape announces. *)
Definition well_formed (a : ndarray) : Prop :=
  length (data a) = size a /\
  match mask a with
  | None => True
  | Some m => length m = length (data a)
  end.

(** [str(n)] of an integer. *)
Definition str_int (z : Z) : string := NilZero.string_of_int (Z.to_int z).

Module np.

(** The error of an index outside [-n, n). *)
Definition out_of_bounds (i n : Z) : exn :=
  IndexError ("index " ++ str_int i ++ " is out of bounds for axis 0 with size "
                ++ str_int n).

(** [a[i]] on a one-dimensional array held as a list: a negative index
    counts from the end, an index outside [-n, n) raises. *)
Definition getitem {A : Type} (l : list A) (i : Z) : result A :=
  let n := Z.of_nat (length l) in
  let j := if i <? 0 then i + n else i in
  if (0 <=? j) && (j <? n) then
    match nth_error l (Z.to_nat j) with
    | Some x => Ok x
    | None => Raise (out_of_bounds i n)
    end
  else Raise (out_of_bounds i n).

(** The value an int16 holds after an operation whose exact result is
    [z]. *)
Definition wrap_int16 (z : Z) : Z := (z + 32768) mod 65536 - 32768.

(** [a[i, j]] of a two-dimensional array in row-major order. *)
Definition item2 (a : ndarray) (i j : nat) : scalar :=
  nth (i * nth 1 (shape a) 0 + j)%nat (data a) (SFloat Float64.nan).

(** [a[:, j]] of a two-dimensional array. *)
Definition column (a : ndarray) (j : nat) : list scalar :=
  map (fun i => item2 a i j) (seq 0 (nth 0 (shape a) 0%nat)).

(** [astype(np.int16)] on a float64 element: the C conversion truncates
    toward zero; a value outside the int16 range (or NaN, or an
    infinity) has no defined result in C, the platform's choice is
    [overflow]. *)
Definition astype_int16 (overflow : float64 -> Z) (x : float64) : Z :=
  match x with
  | S754_zero _ => 0
  | S754_finite s m e =>
      let z := Float64.truncZ s m e in
      if (-32768 <=? z) && (z <=? 32767) then z else overflow x
  | _ => overflow x
  end.

(** The int16 a float64 converts to, when C defines the conversion. *)
Definition int16_value (x : float64) : option Z :=
  match x with
  | S754_zero _ => Some 0
  | S754_finite s m e =>
      let z := Float64.truncZ s m e in
      if (-32768 <=? z) && (z <=? 32767) then Some z else None
  | _ => None
  end.

(** [np.minimum] and [np.maximum] on two elements: NaN propagates. *)
Definition minimum (a b : scalar) : scalar :=
  match a, b with
  | SInt x, SInt y => if x <=? y then a else b
  | _, _ =>
      if Float64.leb (to_float a) (to_float b) || Float64.isnan (to_float a)
      then a else b
  end.

Definition maximum (a b : scalar) : scalar :=
  match a, b with
  | SInt x, SInt y => if x >=? y then a else b
  | _, _ =>
      if Float64.geb (to_float a) (to_float b) || Float64.isnan (to_float a)
      then a else b
  end.

(** [a.min()] and [a.max()] of a plain array: the reduction over all the
    elements; a zero-size array has no identity and raises. *)
Definition min (a : ndarray) : result scalar :=
  match data a with
  | [] => Raise (ValueError "zero-size array to reduction operation minimum which has no identity")
  | x :: l => Ok (fold_left minimum l x)
  end.

Definition max (a : ndarray) : result scalar :=
  match data a with
  | [] => Raise (ValueError "zero-size array to reduction operation maximum which has no identity")
  | x :: l => Ok (fold_left maximum l x)
  end.

(** [a.flatten()]: the elements in row-major order. *)
Definition flatten (a : ndarray) : list scalar := data a.

(** [x == y] between an array's scalar and a Python float. *)
Definition eq_float (s : scalar) (y : float64) : bool :=
  Float64.eqb (to_float s) y.

End np.

(** ** Python helpers *)

(** [str(x)] (and [format]) of an optional string: [None] prints as its name. *)
Definition str_opt (s : option string) : string :=
  match s with
  | Some v => v
  | None => "None"
  end.

(** [str(x)] of an optional integer. *)
Definition str_opt_int (z : option Z) : string :=
  match z with
  | Some v => str_int v
  | None => "None"
  end.

(** ** Map information *)

(** Modelled from the spec: [OpenSpectraHeader.MapInfo] is declared in
    [openspectra_file.py], outside this module; only its accessors are
    used here: the 1-based reference pixel, the pixel size and the
    zero-coordinate as floats, and the parts of the projection
    description, of which the zone and the area may be absent. *)
Record MapInfo : Type := mk_MapInfo {
  x_reference_pixel : float64;
  y_reference_pixel : float64;
  x_pixel_size : float64;
  y_pixel_size : float64;
  x_zero_coordinate : float64;
  y_zero_coordinate : float64;
  projection_name : string;
  projection_zone : option Z;
  projection_area : option string;
  datum : string
}.

(** ** class RegionOfInterest *)

Module RegionOfInterest.

(** The private attributes of an instance.  The read-only accessors
    [id], [x_points], [y_points], [image_height], [image_width],
    [image_name], [display_name] and [map_info] of the class are the
    projections of this record. *)
Record t : Type := mk {
  index : Z;
  id : string;
  display_name : option string;
  image_height : Z;
  image_width : Z;
  image_name : string;
  band_name : option string;
  x_points : list Z;
  y_points : list Z;
  iter_limit : Z;
  x_coords : option (list float64);
  y_coords : option (list float64);
  map_info : option MapInfo
}.

Definition with_index (self : t) (i : Z) : t :=
  mk i (id self) (display_name self) (image_height self) (image_width self)
     (image_name self) (band_name self) (x_points self) (y_points self)
     (iter_limit self) (x_coords self) (y_coords self) (map_info self).

Definition with_display_name (self : t) (name : option string) : t :=
  mk (index self) (id self) name (image_height self) (image_width self)
     (image_name self) (band_name self) (x_points self) (y_points self)
     (iter_limit self) (x_coords self) (y_coords self) (map_info self).

Definition with_map_info (self : t) (m : option MapInfo) : t :=
  mk (index self) (id self) (display_name self) (image_height self)
     (image_width self) (image_name self) (band_name self) (x_points self)
     (y_points self) (iter_limit self) (x_coords self) (y_coords self) m.

Definition with_coords (self : t) (xc yc : option (list float64)) : t :=
  mk (index self) (id self) (display_name self) (image_height self)
     (image_width self) (image_name self) (band_name self) (x_points self)
     (y_points self) (iter_limit self) xc yc (map_info self).

(** The two array expressions of [__calculate_coords], on one element. *)
Definition geo_x (m : MapInfo) (px : Z) : float64 :=
  Float64.add
    (Float64.mul
       (Float64.sub (Float64.of_Z px)
          (Float64.sub (x_reference_pixel m) (Float64.of_Z 1)))
       (x_pixel_size m))
    (x_zero_coordinate m).

Definition geo_y (m : MapInfo) (py : Z) : float64 :=
  Float64.sub (y_zero_coordinate m)
    (Float64.mul
       (Float64.sub (Float64.of_Z py)
          (Float64.sub (y_reference_pixel m) (Float64.of_Z 1)))
       (y_pixel_size m)).

Definition calculate_coords (self : t) : t :=
  match map_info self with
  | Some m =>
      with_coords self
        (Some (map (geo_x m) (x_points self)))
        (Some (map (geo_y m) (y_points self)))
  | None => self
  end.

Section Construction.

(** What the platform's float to int16 conversion gives outside the
    int16 range. *)
Variable int16_overflow : float64 -> Z.

(** [column / zoom_factor] on one element of an array of type [d].  A
    float32 array divided by a Python float stays float32: the zoom factor
    is converted to float32 and the division is a float32 division.  An
    array of booleans, of integers or of float64 is divided in float64. *)
Definition true_divide (d : np_dtype) (s : scalar) (zoom_factor : float64) : float64 :=
  match d with
  | np_float32 =>
      Float32.div (Float32.of_float64 (to_float s)) (Float32.of_float64 zoom_factor)
  | _ => Float64.div (to_float s) zoom_factor
  end.

(** [np.floor(column / zoom_factor).astype(np.int16)] on one element. *)
Definition to_pixel (d : np_dtype) (zoom_factor : float64) (s : scalar) : Z :=
  np.astype_int16 int16_overflow (Float64.floor (true_divide d s zoom_factor)).

(** [np.floor(column / zoom_factor).astype(np.int16)]: [np.floor] has no
    loop for complex numbers and raises before any element is read.  The
    elements of an object table are divided and floored by Python itself;
    they are treated here as float64 numbers, and the theorems on the
    constructor's result are stated for tables of real numbers. *)
Definition to_pixels (d : np_dtype) (zoom_factor : float64) (column : list scalar)
    : result (list Z) :=
  match d with
  | np_complex64 | np_complex128 =>
      Raise (TypeError "ufunc 'floor' not supported for the input types, and the inputs could not be safely coerced to any supported types according to the casting rule ''safe''")
  | _ => Ok (map (to_pixel d zoom_factor) column)
  end.

(** [__init__]; [self_repr] is [str(self)], the default representation
    of the new object. *)
Definition init (self_repr : string) (area : ndarray)
    (x_zoom_factor y_zoom_factor : float64)
    (image_height image_width : Z) (image_name : string)
    (display_name : option string) (map_info : option MapInfo) : result t :=
  let shape := shape area in
  if negb (length shape =? 2)%nat then
    Raise (ValueError "Parameter 'area' dimensions are not valid, expect a 2 dimensional array")
  else if negb (nth 1 shape 0 =? 2)%nat then
    Raise (ValueError "Parameter 'area' dimensions are not valid, expect the second dimension of the array to be 2")
  else
    x_points <- to_pixels (dtype area) x_zoom_factor (np.column area 0) ;;
    y_points <- to_pixels (dtype area) y_zoom_factor (np.column area 1) ;;
    if negb (length x_points =? length y_points)%nat then
      Raise (ValueError "Number of x points doesn't match number of y points")
    else
      Ok (calculate_coords
            (mk (-1) self_repr display_name image_height image_width
                image_name None x_points y_points
                (Z.of_nat (length x_points) - 1) None None map_info)).

End Construction.

(** The spec's InvalidShapeError: the two errors [__init__] raises for the
    shape of [area]. *)
Definition InvalidShapeError (e : exn) : Prop :=
  e = ValueError "Parameter 'area' dimensions are not valid, expect a 2 dimensional array" \/
  e = ValueError "Parameter 'area' dimensions are not valid, expect the second dimension of the array to be 2".

(** [__iter__] and [__next__]; both return [self]. *)
Definition iter (self : t) : t := with_index self (-1).

Definition next (self : t) : result t :=
  if index self >=? iter_limit self then Raise StopIteration
  else Ok (with_index self (index self + 1)).

Definition x_point (self : t) : result Z :=
  np.getitem (x_points self) (index self).

Definition y_point (self : t) : result Z :=
  np.getitem (y_points self) (index self).

Definition x_coordinate (self : t) : result (option float64) :=
  match x_coords self with
  | Some c => v <- np.getitem c (index self) ;; Ok (Some v)
  | None => Ok None
  end.

Definition y_coordinate (self : t) : result (option float64) :=
  match y_coords self with
  | Some c => v <- np.getitem c (index self) ;; Ok (Some v)
  | None => Ok None
  end.

Definition set_display_name (self : t) (name : option string) : t :=
  with_display_name self name.

Definition set_map_info (self : t) (m : option MapInfo) : t :=
  calculate_coords (with_map_info self m).

(** [for r in self: body(r)]: [iter] once, then [next] until it raises
    [StopIteration]; the results of the body are collected in order,
    together with the object as the loop leaves it.  [fuel] bounds the
    number of calls of [next]. *)
Fixpoint loop {A : Type} (fuel : nat) (body : t -> result A) (self : t)
    : option (result (list A * t)) :=
  match fuel with
  | O => None
  | S fuel' =>
      match next self with
      | Raise StopIteration => Some (Ok ([], self))
      | Raise e => Some (Raise e)
      | Ok r =>
          match body r with
          | Raise e => Some (Raise e)
          | Ok a =>
              match loop fuel' body r with
              | Some (Ok (l, final)) => Some (Ok (a :: l, final))
              | other => other
              end
          end
      end
  end.

Definition for_each {A : Type} (fuel : nat) (body : t -> result A) (self : t)
    : option (result (list A * t)) :=
  loop fuel body (iter self).

(** The pixel coordinates at the cursor. *)
Definition point (self : t) : result (Z * Z) :=
  x <- x_point self ;; y <- y_point self ;; Ok (x, y).

(** The methods that change an instance. *)
Inductive method : Type :=
| call_iter
| call_next
| call_set_display_name (name : option string)
| call_set_map_info (m : option MapInfo).

(** A call of [next] that raises leaves the object as it was. *)
Definition call (self : t) (c : method) : t :=
  match c with
  | call_iter => iter self
  | call_next => match next self with Ok r => r | Raise _ => self end
  | call_set_display_name name => set_display_name self name
  | call_set_map_info m => set_map_info self m
  end.

(** The instances a program can hold: constructed by [__init__], then
    changed by any number of method calls. *)
Inductive reachable (int16_overflow : float64 -> Z) : t -> Prop :=
| reachable_init self_repr area xz yz h w name display m self :
    init int16_overflow self_repr area xz yz h w name display m = Ok self ->
    reachable int16_overflow self
| reachable_call self c :
    reachable int16_overflow self ->
    reachable int16_overflow (call self c).

(** The invariant of an instance: as many x as y points, the iteration
    limit is the last position, the cursor lies between before-first
    and the last position, and geo coordinates exist when map
    information does, computed from the pixel coordinates. *)
Record consistent (self : t) : Prop := {
  same_length : length (x_points self) = length (y_points self);
  limit_is_last : iter_limit self = Z.of_nat (length (x_points self)) - 1;
  cursor_in_range : -1 <= index self <= iter_limit self;
  coords_of_map_info : forall m, map_info self = Some m ->
    x_coords self = Some (map (geo_x m) (x_points self)) /\
    y_coords self = Some (map (geo_y m) (y_points self))
}.

End RegionOfInterest.

(** ** The pixel of a point, as the spec words it *)

(** The spec's conversion, floor(x / zoom) cast to a 16-bit signed
    integer, written with the Standard Library's IEEE division and integer
    arithmetic only; the theorems compare [RegionOfInterest.init] with it. *)
Module PixelSpec.

(** The types of a table of real numbers. *)
Definition real_types : list np_dtype :=
  [np_bool; np_int8; np_int16; np_int32; np_int64;
   np_uint8; np_uint16; np_uint32; np_uint64; np_float32; np_float64].

(** The floor of the number [(-1)^s * m * 2^e]. *)
Definition floor_of (s : bool) (m : positive) (e : Z) : Z :=
  let v := if s then Zneg m else Zpos m in
  if 0 <=? e then v * 2 ^ e else v / 2 ^ (- e).

(** [p] is the floor of the float [q] as an int16.  Nothing is required
    where the conversion is undefined: for NaN, for an infinity, and for a
    floor outside the int16 range. *)
Definition is_pixel_of (q : spec_float) (p : Z) : Prop :=
  match q with
  | S754_zero _ => p = 0
  | S754_finite s m e =>
      -32768 <= floor_of s m e <= 32767 -> p = floor_of s m e
  | _ => True
  end.

(** The nearest float32, ties to even. *)
Definition single (x : spec_float) : spec_float :=
  match x with
  | S754_finite s m e => binary_normalize 24 128 (if s then Zneg m else Zpos m) e s
  | _ => x
  end.

(** [x / zoom]: the IEEE quotient, in binary32 for an element of a float32
    table and in binary64 for any other; an integer is first converted to
    the nearest binary64. *)
Definition quotient (d : np_dtype) (x : scalar) (zoom : spec_float) : spec_float :=
  let number :=
    match x with
    | SInt z => binary_normalize 53 1024 z 0 false
    | SFloat v => v
    end in
  match d with
  | np_float32 => SFdiv 24 128 (single number) (single zoom)
  | _ => SFdiv 53 1024 number zoom
  end.

(** A zoom factor that is zero or finite and below 2^127 in magnitude: it
    stays within the float32 range, so that every NumPy divides a float32
    table by it in float32. *)
Definition fits_single (zoom : spec_float) : Prop :=
  match zoom with
  | S754_zero _ => True
  | S754_finite _ m e => Zpos m * 2 ^ Z.max e 0 < 2 ^ (127 - Z.min e 0)
  | _ => False
  end.

(** Whether [check] holds of each of the [2 ^ depth] integers from [low]
    on. *)
Fixpoint holds_from (depth : nat) (low : Z) (check : Z -> bool) : bool :=
  match depth with
  | O => check low
  | S d => holds_from d low check && holds_from d (low + 2 ^ Z.of_nat d) check
  end.

End PixelSpec.

(** ** numpy.ma *)

Module ma.

(** The default fill value of a floating-point masked array, [1e20]. *)
Definition default_fill_value : float64 := Float64.of_Z (10 ^ 20).

(** The mask as [getmaskarray] reads it: all [False] for a plain array. *)
Definition getmaskarray (a : ndarray) : list bool :=
  match mask a with
  | Some m => m
  | None => map (fun _ => false) (data a)
  end.

(** [filled(a)]: the elements, a masked one replaced by the fill value. *)
Definition filled (a : ndarray) : list float64 :=
  map (fun p : scalar * bool =>
         if snd p then default_fill_value else to_float (fst p))
      (combine (data a) (getmaskarray a)).

(** [masked_where(condition, a)]: the condition joined to the mask that
    [a] already has. *)
Definition masked_where (condition : list bool) (a : ndarray) : ndarray :=
  mk_ndarray (dtype a) (shape a) (data a)
    (Some (map (fun p : bool * bool => fst p || snd p)
               (combine condition (getmaskarray a)))).

(** [masked_invalid(a)]: masks what is not finite. *)
Definition masked_invalid (a : ndarray) : ndarray :=
  masked_where (map (fun s => negb (Float64.isfinite (to_float s))) (data a)) a.

(** [masked_outside(x, v1, v2)]: masks what lies outside [[v1, v2]]. *)
Definition masked_outside (x : ndarray) (v1 v2 : float64) : ndarray :=
  let lo := if Float64.ltb v2 v1 then v2 else v1 in
  let hi := if Float64.ltb v2 v1 then v1 else v2 in
  let xf := filled x in
  let condition := map (fun e => Float64.ltb e lo || Float64.gtb e hi) xf in
  masked_where condition x.

End ma.

(** ** class Bands and class BandStatistics *)

Module Bands.

Record t : Type := mk {
  bands : ndarray;
  labels : list (string * string)
}.

(** [__init__(self, bands, labels)]: neither parameter has a default
    value.  An argument is [None] here when the call does not pass it,
    which Python refuses before the body runs. *)
Definition init (bands : option ndarray)
    (labels : option (list (string * string))) : result t :=
  match bands, labels with
  | Some b, Some l => Ok (mk b l)
  | Some _, None =>
      Raise (TypeError "__init__() missing 1 required positional argument: 'labels'")
  | None, Some _ =>
      Raise (TypeError "__init__() missing 1 required positional argument: 'bands'")
  | None, None =>
      Raise (TypeError "__init__() missing 2 required positional arguments: 'bands' and 'labels'")
  end.

End Bands.

Module BandStatistics.

Record t : Type := mk {
  base : Bands.t;
  mean : list float64;
  min : list float64;
  max : list float64;
  std : list float64;
  plus_one_std : list float64;
  minus_one_std : list float64
}.

(** Element by element, as NumPy combines two arrays of one shape. *)
Definition elementwise (f : float64 -> float64 -> float64)
    (a b : list float64) : list float64 :=
  map (fun p : float64 * float64 => f (fst p) (snd p)) (combine a b).

Section Reductions.

(** NumPy's reductions [a.mean(axis)], [a.min(axis)], [a.max(axis)]
    and [a.std(axis)], which skip the masked elements of a masked
    array; they are library code and stay abstract. *)
Variables np_mean np_min np_max np_std : ndarray -> Z -> result (list float64).

(** The statements of [__init__] after the call of the parent's
    constructor. *)
Definition statistics (base : Bands.t) (bands : ndarray) : result t :=
  mean <- np_mean bands 0 ;;
  min <- np_min bands 0 ;;
  max <- np_max bands 0 ;;
  std <- np_std bands 0 ;;
  let mean_plus := elementwise Float64.add mean std in
  let mean_minus := elementwise Float64.sub mean std in
  Ok (mk base mean min max std mean_plus mean_minus).

(** [__init__(self, bands)]: starts with [super().__init__(bands)],
    which passes [bands] and no [labels]. *)
Definition init (bands : ndarray) : result t :=
  base <- Bands.init (Some bands) None ;;
  statistics base bands.

End Reductions.

End BandStatistics.

(** ** class OpenSpectraBandTools *)

Module OpenSpectraBandTools.

(** Python's [a or b] on two conditions that may raise. *)
Definition py_or (a b : result bool) : result bool :=
  x <- a ;; if x then Ok true else b.

Section Tools.

(** [OpenSpectraDataTypes.Floats], a table of [openspectra.utils]. *)
Variable Floats : list np_dtype.

Variables np_mean np_min np_max np_std : ndarray -> Z -> result (list float64).

(** [__bogus_noise_cleanup]; [bands] is a plain array, as the file
    reader returns it. *)
Definition bogus_noise_cleanup (bands : ndarray) : result ndarray :=
  let clean_bands := bands in
  if dtype_in (dtype clean_bands) Floats then
    invalid <-
      py_or (m <- np.min clean_bands ;; Ok (np.eq_float m Float64.nan))
     (py_or (m <- np.max clean_bands ;; Ok (np.eq_float m Float64.nan))
     (py_or (m <- np.min clean_bands ;; Ok (np.eq_float m Float64.inf))
            (m <- np.max clean_bands ;; Ok (np.eq_float m Float64.inf)))) ;;
    let clean_bands :=
      if invalid then ma.masked_invalid clean_bands else clean_bands in
    Ok (ma.masked_outside clean_bands (Float64.of_Z 0) (Float64.of_Z 1))
  else Ok clean_bands.

(** [bands] and [band_statistics]; [file_bands] is what
    [self.__file.bands(lines, samples)] returned. *)
Definition bands (file_bands : ndarray) : result Bands.t :=
  Bands.init (Some file_bands) None.

Definition band_statistics (file_bands : ndarray) : result BandStatistics.t :=
  clean <- bogus_noise_cleanup file_bands ;;
  BandStatistics.init np_mean np_min np_max np_std clean.

End Tools.

End OpenSpectraBandTools.

(** ** String formatting *)

Definition newline : string := String (ascii_of_nat 10) "".

Definition digit_of (c : ascii) : option nat :=
  let n := nat_of_ascii c in
  if ((48 <=? n) && (n <=? 57))%nat then Some (n - 48)%nat else None.

(** [template.format(args...)] for templates whose fields are [{0}] to
    [{9}]; the arguments are given already converted by [str].  A field
    past the last argument raises, an argument no field names is ignored. *)
Fixpoint format (template : string) (args : list string) : result string :=
  match template with
  | EmptyString => Ok EmptyString
  | String c rest =>
      match c, rest with
      | "{"%char, String d (String "}"%char rest') =>
          match digit_of d with
          | Some n =>
              match nth_error args n with
              | Some a => r <- format rest' args ;; Ok (a ++ r)
              | None => Raise (IndexError "Replacement index out of range for positional args tuple")
              end
          | None => Raise (ValueError "unsupported replacement field")
          end
      | _, _ => r <- format rest args ;; Ok (String c r)
      end
  end.

(** ** class OpenSpectraRegionTools *)

Module OpenSpectraRegionTools.

Record t : Type := mk {
  region : RegionOfInterest.t;
  map_info : option MapInfo;
  projection : string;
  output_format : string;
  data_header : string
}.

(** [obj.name()] on an object that may be [None]. *)
Definition getattr (obj : option MapInfo) (name : string) : result MapInfo :=
  match obj with
  | Some m => Ok m
  | None =>
      Raise (AttributeError ("'NoneType' object has no attribute '" ++ name ++ "'"))
  end.

(** [__init__(self, region, band_tools)]; the band tools are stored
    and not used. *)
Definition init (region : RegionOfInterest.t) : result t :=
  let map_info := RegionOfInterest.map_info region in
  m <- getattr map_info "projection_name" ;;
  let projection := projection_name m in
  m <- getattr map_info "projection_zone" ;;
  projection <-
    match projection_zone m with
    | Some _ =>
        m <- getattr map_info "projection_zone" ;;
        Ok (projection ++ (" " ++ str_opt_int (projection_zone m)))
    | None => Ok projection
    end ;;
  m <- getattr map_info "projection_area" ;;
  projection <-
    match projection_area m with
    | Some _ =>
        m <- getattr map_info "projection_area" ;;
        Ok (projection ++ (" " ++ str_opt (projection_area m)))
    | None => Ok projection
    end ;;
  m <- getattr map_info "datum" ;;
  let projection := projection ++ (" " ++ datum m) in
  match map_info with
  | Some _ =>
      Ok (mk region map_info projection
             "{0},{1},{2},{3}" "sample,line,x_coordinate,y_coordinate")
  | None =>
      Ok (mk region map_info projection "{0},{1}" "sample,line")
  end.

Definition get_data_header (self : t) (include_bands : bool) : string :=
  data_header self ++ newline.

Definition get_output_format (self : t) (include_bands : bool) : string :=
  output_format self ++ newline.

Section Save.

(** [str] of a float64, as [format] prints a geo coordinate. *)
Variable str_float : float64 -> string.

(** Whether NumPy promotes as NEP 50 says (NumPy 2): the sum of an int16
    scalar and the Python integer 1 is then an int16 and wraps around;
    before, the sum was a wider integer. *)
Variable nep50 : bool.

(** [r.x_point() + 1] *)
Definition plus_one (x : Z) : Z :=
  if nep50 then np.wrap_int16 (x + 1) else x + 1.

Definition str_coordinate (c : option float64) : string :=
  match c with
  | Some v => str_float v
  | None => "None"
  end.

(** The body of the loop of [save_region]: the line written for the
    point at the cursor. *)
Definition data_line (output_format : string) (r : RegionOfInterest.t)
    : result string :=
  x <- RegionOfInterest.x_point r ;;
  y <- RegionOfInterest.y_point r ;;
  xc <- RegionOfInterest.x_coordinate r ;;
  yc <- RegionOfInterest.y_coordinate r ;;
  format output_format
    [str_int (plus_one x); str_int (plus_one y); str_coordinate xc; str_coordinate yc].

(** [save_region(self, file_name, include_bands)]: the text written to
    the file, in order.  [fuel] bounds the loop over the region. *)
Definition save_region (fuel : nat) (self : t) (include_bands : bool)
    : option (result string) :=
  let r := region self in
  match
    l1 <- format ("name:{0}" ++ newline) [str_opt (RegionOfInterest.display_name r)] ;;
    l2 <- format ("description:{0}" ++ newline) [RegionOfInterest.image_name r] ;;
    l3 <- format ("image width:{0}" ++ newline) [str_int (RegionOfInterest.image_width r)] ;;
    l4 <- format ("image height:{0}" ++ newline) [str_int (RegionOfInterest.image_height r)] ;;
    l5 <- format ("projection:{0}" ++ newline) [projection self] ;;
    Ok (l1 ++ l2 ++ l3 ++ l4 ++ l5 ++ "data:" ++ newline
           ++ get_data_header self include_bands)
  with
  | Raise e => Some (Raise e)
  | Ok head =>
      let output_format := get_output_format self include_bands in
      match RegionOfInterest.for_each fuel (data_line output_format) r with
      | None => None
      | Some (Raise e) => Some (Raise e)
      | Some (Ok (lines, _)) => Some (Ok (head ++ String.concat "" lines))
      end
  end.

End Save.

End OpenSpectraRegionTools.

(** ** Plot data *)

Record HistogramPlotData : Type := mk_HistogramPlotData {
  x_data : scalar * scalar;
  y_data : list scalar;
  bins : scalar;
  x_label : option string;
  y_label : option string;
  title : option string;
  color : string;
  line_style : string;
  legend : option string;
  lower_limit : option scalar;
  upper_limit : option scalar
}.

(** ** class OpenSpectraHistogramTools *)

Module OpenSpectraHistogramTools.

(** The width in bits of an integer type and whether it is signed. *)
Definition int_type (d : np_dtype) : option (bool * Z) :=
  match d with
  | np_int8 => Some (true, 8)
  | np_int16 => Some (true, 16)
  | np_int32 => Some (true, 32)
  | np_int64 => Some (true, 64)
  | np_uint8 => Some (false, 8)
  | np_uint16 => Some (false, 16)
  | np_uint32 => Some (false, 32)
  | np_uint64 => Some (false, 64)
  | _ => None
  end.

(** The value a NumPy integer of type [d] holds after an operation whose
    exact result is [z]: the result modulo [2^w], read as signed or
    unsigned. *)
Definition wrap (d : np_dtype) (z : Z) : Z :=
  match int_type d with
  | Some (true, w) => (z + 2 ^ (w - 1)) mod 2 ^ w - 2 ^ (w - 1)
  | Some (false, w) => z mod 2 ^ w
  | None => z
  end.

(** [a - b] between two scalars of an array of type [d]. *)
Definition subtract (d : np_dtype) (a b : scalar) : scalar :=
  match a, b with
  | SInt x, SInt y => SInt (wrap d (x - y))
  | _, _ => SFloat (Float64.sub (to_float a) (to_float b))
  end.

Section Histogram.

(** [OpenSpectraDataTypes.Ints], [OpenSpectraDataTypes.Floats] and
    [OpenSpectraProperties.FloatBins], of [openspectra.utils]. *)
Variables Ints Floats : list np_dtype.
Variable FloatBins : Z.

(** [__get_hist_data] *)
Definition get_hist_data (data : ndarray) : result HistogramPlotData :=
  let type := dtype data in
  if dtype_in type Ints then
    lo <- np.min data ;;
    hi <- np.max data ;;
    let x_range := (lo, hi) in
    hi' <- np.max data ;;
    lo' <- np.min data ;;
    let bins := subtract type hi' lo' in
    Ok (mk_HistogramPlotData x_range (np.flatten data) bins
          None None None "b" "-" None None None)
  else if dtype_in type Floats then
    lo <- np.min data ;;
    hi <- np.max data ;;
    let x_range := (lo, hi) in
    let bins := SInt FloatBins in
    Ok (mk_HistogramPlotData x_range (np.flatten data) bins
          None None None "b" "-" None None None)
  else
    Raise (TypeError ("Data with type " ++ dtype_name type ++ " is not supported")).

End Histogram.

End OpenSpectraHistogramTools.

(** ** Example objects *)

Module Examples.

(** A platform whose conversion to int16 gives 0 outside the range. *)
Definition overflow_to_zero (x : float64) : Z := 0.

(** The table [[0, 1]]: one point. *)
Definition one_point : ndarray :=
  mk_ndarray np_int64 [1%nat; 2%nat] [SInt 0; SInt 1] None.

(** The table [[0, 1], [5, 7], [10, 3]]. *)
Definition three_points : ndarray :=
  mk_ndarray np_int64 [3%nat; 2%nat]
    [SInt 0; SInt 1; SInt 5; SInt 7; SInt 10; SInt 3] None.

(** Tables of shape (3,) and (2, 3). *)
Definition flat_table : ndarray :=
  mk_ndarray np_int64 [3%nat] [SInt 0; SInt 1; SInt 2] None.

Definition three_columns : ndarray :=
  mk_ndarray np_int64 [2%nat; 3%nat]
    [SInt 0; SInt 1; SInt 2; SInt 3; SInt 4; SInt 5] None.

(** Reference pixel (1, 1), 30 by 30 pixels, origin (500000, 4000000). *)
Definition utm : MapInfo :=
  mk_MapInfo (Float64.of_Z 1) (Float64.of_Z 1) (Float64.of_Z 30) (Float64.of_Z 30)
    (Float64.of_Z 500000) (Float64.of_Z 4000000) "UTM" (Some 13) None "WGS-84".

(** How Python prints a float64 that holds a whole number below 1e16. *)
Definition str_whole (x : float64) : string :=
  match x with
  | S754_zero _ => "0.0"
  | S754_finite s m e => str_int (Float64.truncZ s m e) ++ ".0"
  | _ => "nan"
  end.

Definition no_region : RegionOfInterest.t :=
  RegionOfInterest.mk (-1) "" None 0 0 "" None [] [] (-1) None None None.

Definition region_of (r : result RegionOfInterest.t) : RegionOfInterest.t :=
  match r with Ok self => self | Raise _ => no_region end.

(** The region "r1" of the image "img" (10 by 10), points [[0, 1]],
    zoom 1, without map information. *)
Definition r1 : RegionOfInterest.t :=
  Eval vm_compute in
    region_of (RegionOfInterest.init overflow_to_zero "<RegionOfInterest r1>"
                 one_point (Float64.of_Z 1) (Float64.of_Z 1) 10 10 "img"
                 (Some "r1") None).

(** The same region constructed with map information. *)
Definition r1_geo : RegionOfInterest.t :=
  Eval vm_compute in
    region_of (RegionOfInterest.init overflow_to_zero "<RegionOfInterest r1>"
                 one_point (Float64.of_Z 1) (Float64.of_Z 1) 10 10 "img"
                 (Some "r1") (Some utm)).

(** Three points at zoom 2, with map information. *)
Definition r3_geo : RegionOfInterest.t :=
  Eval vm_compute in
    region_of (RegionOfInterest.init overflow_to_zero "<RegionOfInterest r3>"
                 three_points (Float64.of_Z 2) (Float64.of_Z 2) 10 10 "img"
                 None (Some utm)).

(** A float64 band with a valid value, 2.0 and NaN. *)
Definition noisy_band : ndarray :=
  mk_ndarray np_float64 [3%nat; 1%nat]
    [SFloat (Float64.ldexp 1 (-1)); SFloat (Float64.of_Z 2); SFloat Float64.nan]
    None.

(** A float64 band of two pixels with the values 0.25 and 0.5. *)
Definition clean_band : ndarray :=
  mk_ndarray np_float64 [2%nat; 1%nat]
    [SFloat (Float64.ldexp 1 (-2)); SFloat (Float64.ldexp 1 (-1))] None.

(** int16 pixels between -20000 and 20000, and between 0 and 9. *)
Definition wide_int16 : ndarray :=
  mk_ndarray np_int16 [3%nat] [SInt (-20000); SInt 0; SInt 20000] None.

Definition digits_int16 : ndarray :=
  mk_ndarray np_int16 [3%nat] [SInt 9; SInt 0; SInt 5] None.

(** Modelled from the spec: [OpenSpectraDataTypes.Ints] and
    [OpenSpectraDataTypes.Floats] are tables of [openspectra.utils], which
    is not among the sources; the spec calls their members integer and
    floating-point data.  These are the integer and floating-point pixel
    types of an ENVI file. *)
Definition Ints : list np_dtype :=
  [np_uint8; np_int16; np_int32; np_uint16; np_uint32; np_int64; np_uint64].

Definition Floats : list np_dtype := [np_float32; np_float64].

End Examples.

(** ** class LinePlotData *)

Module LinePlotData.

(** The attributes [PlotData.__init__] stores; [Y] is what the y axis
    holds, an array or a sequence of per-band values. *)
Record t (Y : Type) : Type := mk {
  x_data : ndarray;
  y_data : Y;
  x_label : option string;
  y_label : option string;
  title : option string;
  color : string;
  line_style : string;
  legend : option string
}.
Arguments mk {Y}.
Arguments x_data {Y}.
Arguments y_data {Y}.
Arguments x_label {Y}.
Arguments y_label {Y}.
Arguments title {Y}.
Arguments color {Y}.
Arguments line_style {Y}.
Arguments legend {Y}.

(** [__init__]; an optional [color] or [line_style] the call does not
    pass takes its default, "b" or "-". *)
Definition init {Y : Type} (x_data : ndarray) (y_data : Y)
    (x_label y_label title color line_style legend : option string) : t Y :=
  mk x_data y_data x_label y_label title
     (match color with Some c => c | None => "b" end)
     (match line_style with Some s => s | None => "-" end)
     legend.

End LinePlotData.

(** ** class BandStaticsPlotData *)

Module BandStaticsPlotData.

Record t : Type := mk {
  band_stats : BandStatistics.t;
  wavelengths : ndarray;
  title : string
}.

Definition init (band_stats : BandStatistics.t) (wavelengths : ndarray)
    (title : option string) : t :=
  mk band_stats wavelengths
     (match title with Some s => s | None => "Band Stats" end).

Definition mean (self : t) : LinePlotData.t (list float64) :=
  LinePlotData.init (wavelengths self) (BandStatistics.mean (band_stats self))
    (Some "Wavelength") (Some "Brightness") (Some (title self)) (Some "b") None
    (Some "mean").

Definition min (self : t) : LinePlotData.t (list float64) :=
  LinePlotData.init (wavelengths self) (BandStatistics.min (band_stats self))
    (Some "Wavelength") (Some "Brightness") (Some (title self)) (Some "r") None
    (Some "min").

Definition max (self : t) : LinePlotData.t (list float64) :=
  LinePlotData.init (wavelengths self) (BandStatistics.max (band_stats self))
    (Some "Wavelength") (Some "Brightness") (Some (title self)) (Some "r") None
    (Some "max").

Definition plus_one_std (self : t) : LinePlotData.t (list float64) :=
  LinePlotData.init (wavelengths self) (BandStatistics.plus_one_std (band_stats self))
    (Some "Wavelength") (Some "Brightness") (Some (title self)) (Some "g") None
    (Some "std+").

Definition minus_one_std (self : t) : LinePlotData.t (list float64) :=
  LinePlotData.init (wavelengths self) (BandStatistics.minus_one_std (band_stats self))
    (Some "Wavelength") (Some "Brightness") (Some (title self)) (Some "g") None
    (Some "std-").

End BandStaticsPlotData.

(** ** class OpenSpectraBandTools: the plots *)

Module BandPlots.

Section Plots.

Variable Floats : list np_dtype.
Variables np_mean np_min np_max np_std : ndarray -> Z -> result (list float64).

(** [statistics_plot]; [file_bands] is what [self.__file.bands(lines,
    samples)] returned and [wavelengths] what
    [self.__file.header().wavelengths()] returns. *)
Definition statistics_plot (file_bands wavelengths : ndarray)
    (title : option string) : result BandStaticsPlotData.t :=
  band_stats <- OpenSpectraBandTools.band_statistics Floats np_mean np_min np_max
                  np_std file_bands ;;
  Ok (BandStaticsPlotData.init band_stats wavelengths title).

(** [spectral_plot(line, sample)]; [file_bands] is what
    [self.__file.bands(line, sample)] returned. *)
Definition spectral_plot (file_bands wavelengths : ndarray) (line sample : Z)
    : result (LinePlotData.t ndarray) :=
  band <- OpenSpectraBandTools.bogus_noise_cleanup Floats file_bands ;;
  title <- format "Spectra S-{0}, L-{1}" [str_int (sample + 1); str_int (line + 1)] ;;
  Ok (LinePlotData.init wavelengths band (Some "Wavelength") (Some "Brightness")
        (Some title) None None None).

End Plots.

End BandPlots.

(** ** class OpenSpectraHistogramTools: construction and the two requests *)

Module HistogramRequests.

Section Requests.

(** Modelled from the spec: the image classes live in [openspectra.image],
    outside this module.  An image is any object; what is used of it are
    the two [isinstance] tests and the accessors [raw_data], [image_data],
    [label], [low_cutoff] and [high_cutoff], each of which may raise. *)
Variable Image : Type.
Variable Band : Type.
Variables is_GreyscaleImage is_RGBImage : Image -> bool.
Variables raw_data image_data : Image -> option Band -> result ndarray.
Variable label : Image -> option Band -> result string.
Variables low_cutoff high_cutoff : Image -> option Band -> result scalar.

Variables Ints Floats : list np_dtype.
Variable FloatBins : Z.

Record t : Type := mk {
  image : Image;
  type : string
}.

Definition init (image : Image) : result t :=
  if is_GreyscaleImage image then Ok (mk image "greyscale")
  else if is_RGBImage image then Ok (mk image "rgb")
  else Raise (TypeError "Unknown image type").

Definition is_None {A : Type} (o : option A) : bool :=
  match o with None => true | Some _ => false end.

Definition raw_histogram (self : t) (band : option Band) : result HistogramPlotData :=
  if String.eqb (type self) "rgb" && is_None band then
    Raise (ValueError "band argument is required when image is RGB")
  else
    raw <- raw_data (image self) band ;;
    plot_data <- OpenSpectraHistogramTools.get_hist_data Ints Floats FloatBins raw ;;
    name <- label (image self) band ;;
    lower <- low_cutoff (image self) band ;;
    upper <- high_cutoff (image self) band ;;
    Ok (mk_HistogramPlotData (x_data plot_data) (y_data plot_data) (bins plot_data)
          (Some "X-FixMe") (Some "Y-FixMe") (Some ("Raw " ++ name)) "r"
          (line_style plot_data) (legend plot_data) (Some lower) (Some upper)).

Definition adjusted_histogram (self : t) (band : option Band)
    : result HistogramPlotData :=
  if String.eqb (type self) "rgb" && is_None band then
    Raise (ValueError "band argument is required when image is RGB")
  else
    adjusted <- image_data (image self) band ;;
    plot_data <- OpenSpectraHistogramTools.get_hist_data Ints Floats FloatBins adjusted ;;
    name <- label (image self) band ;;
    Ok (mk_HistogramPlotData (x_data plot_data) (y_data plot_data) (bins plot_data)
          (Some "X-FixMe") (Some "Y-FixMe") (Some ("Adjusted " ++ name)) "b"
          (line_style plot_data) (legend plot_data) (lower_limit plot_data)
          (upper_limit plot_data)).

End Requests.

End HistogramRequests.

(** [len(l) == 0] *)
Definition is_nil {A : Type} (l : list A) : bool :=
  match l with [] => true | _ :: _ => false end.

(** ** Histories of a region *)

Module History.

(** The object after a sequence of method calls, first call first. *)
Definition run (self : RegionOfInterest.t) (calls : list RegionOfInterest.method)
    : RegionOfInterest.t :=
  fold_left RegionOfInterest.call calls self.

(** The map information that last reached [__calculate_coords] with a
    value: the argument of the last [set_map_info] that passed one, or
    else the one given to the constructor. *)
Fixpoint last_supplied (given : option MapInfo) (calls : list RegionOfInterest.method)
    : option MapInfo :=
  match calls with
  | [] => given
  | RegionOfInterest.call_set_map_info (Some m) :: rest => last_supplied (Some m) rest
  | _ :: rest => last_supplied given rest
  end.

End History.

(** ** More example objects *)

Module Samples.

(** A table of shape (0, 2): no point. *)
Definition no_points : ndarray := mk_ndarray np_int64 [0%nat; 2%nat] [] None.

(** Map information with another origin and a pixel size of 10. *)
Definition other_utm : MapInfo :=
  mk_MapInfo (Float64.of_Z 1) (Float64.of_Z 1) (Float64.of_Z 10) (Float64.of_Z 10)
    (Float64.of_Z 100) (Float64.of_Z 200) "UTM" None (Some "North") "NAD-27".

(** A float64 band with values below, inside and above [0, 1], and both
    infinities. *)
Definition mixed_band : ndarray :=
  mk_ndarray np_float64 [5%nat; 1%nat]
    [SFloat (Float64.ldexp (-1) (-1)); SFloat (Float64.ldexp 1 (-1));
     SFloat (Float64.of_Z 2); SFloat Float64.inf; SFloat (S754_infinity true)]
    None.

Definition mixed_values : list float64 :=
  [Float64.ldexp (-1) (-1); Float64.ldexp 1 (-1); Float64.of_Z 2; Float64.inf;
   S754_infinity true].

Definition empty_band : ndarray := mk_ndarray np_float64 [0%nat; 1%nat] [] None.

Definition wavelengths : ndarray :=
  mk_ndarray np_float64 [3%nat]
    [SFloat (Float64.of_Z 400); SFloat (Float64.of_Z 500); SFloat (Float64.of_Z 600)]
    None.

(** The float32 table [[0.7, 0.9], [3.0, 0.6]] and the zoom factor 0.1. *)
Definition single_points : ndarray :=
  mk_ndarray np_float32 [2%nat; 2%nat]
    [SFloat (Float64.ldexp 11744051 (-24)); SFloat (Float64.ldexp 15099494 (-24));
     SFloat (Float64.of_Z 3); SFloat (Float64.ldexp 10066330 (-24))] None.

Definition tenth : float64 := Float64.ldexp 7205759403792794 (-56).

(** The table [[-5, 5]] and a complex table of one point. *)
Definition signed_point : ndarray :=
  mk_ndarray np_int64 [1%nat; 2%nat] [SInt (-5); SInt 5] None.

Definition complex_point : ndarray :=
  mk_ndarray np_complex128 [1%nat; 2%nat] [SFloat (Float64.of_Z 0); SFloat (Float64.of_Z 1)]
    None.

(** A region whose first point has the largest int16 as x coordinate. *)
Definition edge_points : ndarray :=
  mk_ndarray np_int64 [1%nat; 2%nat] [SInt 32767; SInt 1] None.

Definition edge_region : RegionOfInterest.t :=
  Eval vm_compute in
    Examples.region_of
      (RegionOfInterest.init Examples.overflow_to_zero "<RegionOfInterest edge>"
         edge_points (Float64.of_Z 1) (Float64.of_Z 1) 10 10 "img" None
         (Some Examples.utm)).

(** uint8 pixels between 3 and 250. *)
Definition bytes : ndarray :=
  mk_ndarray np_uint8 [3%nat] [SInt 250; SInt 3; SInt 17] None.

(** Images for the histogram tools: an image is its kind and its data. *)
Inductive kind : Type := grey | rgb | unknown.

Definition image : Type := (kind * ndarray)%type.

Definition is_grey (i : image) : bool :=
  match fst i with grey => true | _ => false end.

Definition is_rgb (i : image) : bool :=
  match fst i with rgb => true | _ => false end.

Definition data_of (i : image) (band : option nat) : result ndarray := Ok (snd i).

Definition label_of (i : image) (band : option nat) : result string := Ok "band".

Definition cutoff_low (i : image) (band : option nat) : result scalar := Ok (SInt 0).

Definition cutoff_high (i : image) (band : option nat) : result scalar := Ok (SInt 255).

End Samples.

(** * Properties *)

(** ** Indexing *)

Lemma getitem_nonneg {A : Type} (l : list A) (i : Z) (d : A) :
  0 <= i < Z.of_nat (length l) ->
  np.getitem l i = Ok (nth (Z.to_nat i) l d).
Proof.
  intros Hi. unfold np.getitem.
  replace (i <? 0) with false by (symmetry; apply Z.ltb_ge; lia).
  replace (0 <=? i) with true by (symmetry; apply Z.leb_le; lia).
  replace (i <? Z.of_nat (length l)) with true by (symmetry; apply Z.ltb_lt; lia).
  simpl. rewrite (nth_error_nth' l d) by lia. reflexivity.
Qed.

Lemma nth_last_position {A : Type} (l : list A) (d : A) :
  nth (length l - 1) l d = last l d.
Proof.
  induction l as [| a [| b l] IH]; try reflexivity.
  change (last (a :: b :: l) d) with (last (b :: l) d). rewrite <- IH.
  simpl. now rewrite Nat.sub_0_r.
Qed.

Lemma getitem_minus_one {A : Type} (l : list A) (d : A) :
  l <> [] ->
  np.getitem l (-1) = Ok (last l d).
Proof.
  intros Hl. unfold np.getitem.
  assert (Hlen : (0 < length l)%nat) by (destruct l; [congruence | simpl; lia]).
  change (-1 <? 0) with true. cbv iota.
  replace (0 <=? -1 + Z.of_nat (length l)) with true by (symmetry; apply Z.leb_le; lia).
  replace (-1 + Z.of_nat (length l) <? Z.of_nat (length l)) with true
    by (symmetry; apply Z.ltb_lt; lia).
  cbv [andb].
  assert (Hk : Z.to_nat (-1 + Z.of_nat (length l)) = (length l - 1)%nat) by lia.
  rewrite Hk. rewrite (nth_error_nth' l d) by lia.
  now rewrite nth_last_position.
Qed.

Lemma getitem_empty {A : Type} (i : Z) :
  exists msg, np.getitem (@nil A) i = Raise (IndexError msg).
Proof.
  unfold np.getitem, np.out_of_bounds. cbn [length Z.of_nat].
  destruct (i <? 0) eqn:Hi.
  - destruct ((0 <=? i + 0) && (i + 0 <? 0)) eqn:E; [| eauto].
    apply andb_prop in E as [E1 E2].
    apply Z.leb_le in E1. apply Z.ltb_lt in E2. lia.
  - destruct ((0 <=? i) && (i <? 0)) eqn:E; [| eauto].
    apply andb_prop in E as [E1 E2].
    apply Z.leb_le in E1. apply Z.ltb_lt in E2. lia.
Qed.

Lemma length_column (a : ndarray) (j : nat) :
  length (np.column a j) = nth 0 (shape a) 0%nat.
Proof. unfold np.column. now rewrite length_map, length_seq. Qed.

Lemma nth_column (a : ndarray) (j i : nat) (d : scalar) :
  (i < nth 0 (shape a) 0)%nat ->
  nth i (np.column a j) d = np.item2 a i j.
Proof.
  intros Hi. unfold np.column.
  rewrite (nth_indep _ d (np.item2 a 0 j)) by now rewrite length_map, length_seq.
  rewrite (map_nth (fun i => np.item2 a i j) (seq 0 _) 0%nat).
  now rewrite seq_nth.
Qed.

(** ** RegionOfInterest: construction and invariants *)

Section RegionOfInterestFacts.

Import RegionOfInterest.

Variable int16_overflow : float64 -> Z.

(** The pixel coordinates of a column are as many as its elements. *)
Lemma to_pixels_length d zoom column pixels :
  to_pixels int16_overflow d zoom column = Ok pixels ->
  pixels = map (to_pixel int16_overflow d zoom) column /\
  length pixels = length column.
Proof.
  unfold to_pixels. destruct d; intros H; try discriminate;
    injection H as <-; now rewrite length_map.
Qed.

(** What [__init__] builds from a table whose shape is accepted, once
    both columns are converted. *)
Lemma init_accepts self_repr area xz yz h w name display m (n : nat) xs ys :
  shape area = [n; 2%nat] ->
  to_pixels int16_overflow (dtype area) xz (np.column area 0) = Ok xs ->
  to_pixels int16_overflow (dtype area) yz (np.column area 1) = Ok ys ->
  init int16_overflow self_repr area xz yz h w name display m =
  Ok (calculate_coords
        (mk (-1) self_repr display h w name None xs ys (Z.of_nat n - 1) None None m)).
Proof.
  intros Hs Hx Hy. unfold init. rewrite Hs. cbn [length nth Nat.eqb negb].
  rewrite Hx, Hy. cbn [bind].
  destruct (to_pixels_length _ _ _ _ Hx) as [_ Hlx].
  destruct (to_pixels_length _ _ _ _ Hy) as [_ Hly].
  rewrite length_column, Hs in Hlx, Hly. cbn [nth] in Hlx, Hly.
  rewrite Hlx, Hly, Nat.eqb_refl. reflexivity.
Qed.

(** Every region the constructor returns. *)
Lemma init_result self_repr area xz yz h w name display m self :
  init int16_overflow self_repr area xz yz h w name display m = Ok self ->
  exists (n : nat) xs ys,
    shape area = [n; 2%nat] /\
    to_pixels int16_overflow (dtype area) xz (np.column area 0) = Ok xs /\
    to_pixels int16_overflow (dtype area) yz (np.column area 1) = Ok ys /\
    length xs = n /\ length ys = n /\
    self = calculate_coords
             (mk (-1) self_repr display h w name None xs ys (Z.of_nat n - 1)
                 None None m).
Proof.
  intros Hinit. assert (Hshape : exists n, shape area = [n; 2%nat]).
  { revert Hinit. unfold init.
    destruct (shape area) as [| n [| c [| ? ?]]]; simpl; try discriminate.
    destruct (c =? 2)%nat eqn:Hc; simpl; try discriminate.
    apply Nat.eqb_eq in Hc. subst c. eauto. }
  destruct Hshape as [n Hs]. exists n.
  destruct (to_pixels int16_overflow (dtype area) xz (np.column area 0)) as [xs |] eqn:Hx;
    [| unfold init in Hinit; rewrite Hs, Hx in Hinit; discriminate].
  destruct (to_pixels int16_overflow (dtype area) yz (np.column area 1)) as [ys |] eqn:Hy;
    [| unfold init in Hinit; rewrite Hs, Hx, Hy in Hinit; discriminate].
  exists xs, ys.
  rewrite (init_accepts _ _ _ _ _ _ _ _ _ n xs ys Hs Hx Hy) in Hinit.
  injection Hinit as <-.
  destruct (to_pixels_length _ _ _ _ Hx) as [_ Hlx].
  destruct (to_pixels_length _ _ _ _ Hy) as [_ Hly].
  rewrite length_column, Hs in Hlx, Hly. cbn [nth] in Hlx, Hly. auto 10.
Qed.

(** The shape of every accepted table. *)
Lemma init_shape self_repr area xz yz h w name display m self :
  init int16_overflow self_repr area xz yz h w name display m = Ok self ->
  exists n, shape area = [n; 2%nat].
Proof.
  intros Hinit.
  destruct (init_result _ _ _ _ _ _ _ _ _ _ Hinit) as (n & _ & _ & Hs & _). eauto.
Qed.

Lemma calculate_coords_pixels self :
  x_points (calculate_coords self) = x_points self /\
  y_points (calculate_coords self) = y_points self /\
  index (calculate_coords self) = index self /\
  iter_limit (calculate_coords self) = iter_limit self /\
  map_info (calculate_coords self) = map_info self.
Proof. unfold calculate_coords. destruct (map_info self) eqn:E; simpl; auto. Qed.

Lemma init_consistent self_repr area xz yz h w name display m self :
  init int16_overflow self_repr area xz yz h w name display m = Ok self ->
  consistent self.
Proof.
  intros Hinit.
  destruct (init_result _ _ _ _ _ _ _ _ _ _ Hinit)
    as (n & xs & ys & Hs & _ & _ & Hlx & Hly & ->).
  unfold calculate_coords; simpl.
  destruct m as [m |]; constructor; simpl; try lia; try discriminate.
  intros m' [= <-]. auto.
Qed.

Lemma call_consistent self c :
  consistent self -> consistent (call self c).
Proof.
  intros [Hlen Hlim Hcur Hgeo]. destruct c as [| | name | m]; simpl.
  - constructor; simpl; auto. lia.
  - unfold next. destruct (index self >=? iter_limit self) eqn:E.
    + constructor; auto.
    + constructor; simpl; auto. rewrite Z.geb_leb in E. apply Z.leb_gt in E. lia.
  - constructor; simpl; auto.
  - unfold set_map_info, calculate_coords. simpl.
    destruct m as [m |]; constructor; simpl; auto; try discriminate.
    intros m' [= <-]. auto.
Qed.

Lemma reachable_consistent self :
  reachable int16_overflow self -> consistent self.
Proof.
  induction 1 as [? ? ? ? ? ? ? ? ? ? Hinit | self c _ IH].
  - eapply init_consistent; eauto.
  - now apply call_consistent.
Qed.

End RegionOfInterestFacts.

Lemma r1_constructed :
  RegionOfInterest.init Examples.overflow_to_zero "<RegionOfInterest r1>"
    Examples.one_point (Float64.of_Z 1) (Float64.of_Z 1) 10 10 "img"
    (Some "r1") None = Ok Examples.r1.
Proof. vm_compute. reflexivity. Qed.

Lemma r1_geo_constructed :
  RegionOfInterest.init Examples.overflow_to_zero "<RegionOfInterest r1>"
    Examples.one_point (Float64.of_Z 1) (Float64.of_Z 1) 10 10 "img"
    (Some "r1") (Some Examples.utm) = Ok Examples.r1_geo.
Proof. vm_compute. reflexivity. Qed.

Lemma r3_geo_constructed :
  RegionOfInterest.init Examples.overflow_to_zero "<RegionOfInterest r3>"
    Examples.three_points (Float64.of_Z 2) (Float64.of_Z 2) 10 10 "img"
    None (Some Examples.utm) = Ok Examples.r3_geo.
Proof. vm_compute. reflexivity. Qed.

Lemma r1_reachable :
  RegionOfInterest.reachable Examples.overflow_to_zero Examples.r1.
Proof. eapply RegionOfInterest.reachable_init, r1_constructed. Qed.

Lemma r1_geo_reachable :
  RegionOfInterest.reachable Examples.overflow_to_zero Examples.r1_geo.
Proof. eapply RegionOfInterest.reachable_init, r1_geo_constructed. Qed.

Lemma r3_geo_reachable :
  RegionOfInterest.reachable Examples.overflow_to_zero Examples.r3_geo.
Proof. eapply RegionOfInterest.reachable_init, r3_geo_constructed. Qed.

Lemma edge_region_reachable :
  RegionOfInterest.reachable Examples.overflow_to_zero Samples.edge_region.
Proof.
  apply (RegionOfInterest.reachable_init Examples.overflow_to_zero
           "<RegionOfInterest edge>" Samples.edge_points (Float64.of_Z 1) (Float64.of_Z 1)
           10 10 "img" None (Some Examples.utm)).
  vm_compute. reflexivity.
Qed.

(** ** RegionOfInterest: pixel coordinates *)

Lemma nth_map_in_range {A B : Type} (f : A -> B) (l : list A) (i : nat) (d : B) (e : A) :
  (i < length l)%nat -> nth i (map f l) d = f (nth i l e).
Proof.
  intros Hi. rewrite (nth_indep _ d (f e)) by now rewrite length_map.
  apply map_nth.
Qed.

Lemma holds_from_spec (check : Z -> bool) (depth : nat) (low : Z) :
  PixelSpec.holds_from depth low check = true ->
  forall z, low <= z < low + 2 ^ Z.of_nat depth -> check z = true.
Proof.
  revert low. induction depth as [| d IH]; intros low Hall z Hz.
  - cbn in Hz. replace z with low by lia. exact Hall.
  - cbn [PixelSpec.holds_from] in Hall. apply andb_true_iff in Hall as [Hl Hr].
    rewrite Nat2Z.inj_succ, Z.pow_succ_r in Hz by lia.
    destruct (Z.lt_ge_cases z (low + 2 ^ Z.of_nat d)).
    + apply (IH low Hl). lia.
    + apply (IH _ Hr). lia.
Qed.

(** The conversion to int16 gives back every int16 that was converted to
    float64. *)
Lemma int16_round_trip_table :
  PixelSpec.holds_from 16 (-32768)
    (fun z => match np.int16_value (Float64.of_Z z) with
              | Some v => v =? z
              | None => false
              end) = true.
Proof. vm_compute. reflexivity. Qed.

Lemma astype_int16_value (overflow : float64 -> Z) (x : float64) :
  np.astype_int16 overflow x =
    match np.int16_value x with Some z => z | None => overflow x end.
Proof.
  destruct x as [s | s | | s m e]; try reflexivity.
  unfold np.astype_int16, np.int16_value. cbv zeta.
  now destruct ((-32768 <=? Float64.truncZ s m e) && (Float64.truncZ s m e <=? 32767)).
Qed.

Lemma int16_round_trip (overflow : float64 -> Z) (z : Z) :
  -32768 <= z <= 32767 ->
  np.astype_int16 overflow (Float64.of_Z z) = z.
Proof.
  intros Hz. rewrite astype_int16_value.
  pose proof (holds_from_spec _ _ _ int16_round_trip_table z) as Htable.
  cbv beta in Htable.
  assert (Hin : -32768 <= z < -32768 + 2 ^ Z.of_nat 16) by (cbn; lia).
  specialize (Htable Hin).
  destruct (np.int16_value (Float64.of_Z z)) as [v |]; [| discriminate].
  now apply Z.eqb_eq in Htable.
Qed.

(** [np.floor] followed by the conversion to int16 computes the floor of
    the number a float holds, wherever the conversion is defined. *)
Lemma floor_astype_is_pixel (overflow : float64 -> Z) (q : float64) :
  PixelSpec.is_pixel_of q (np.astype_int16 overflow (Float64.floor q)).
Proof.
  destruct q as [s | s | | s m e]; cbn [PixelSpec.is_pixel_of]; auto.
  unfold PixelSpec.floor_of. cbv zeta. cbn [Float64.floor].
  destruct (Z.leb_spec 0 e) as [He | He]; intros Hrange.
  - replace (e <? 0) with false by (symmetry; apply Z.ltb_ge; lia).
    assert (Htrunc : Float64.truncZ s m e = (if s then Zneg m else Zpos m) * 2 ^ e).
    { unfold Float64.truncZ. rewrite Z.shiftl_mul_pow2 by lia.
      destruct s; cbn [cond_Zopp]; [| reflexivity].
      change (Z.neg m) with (- Z.pos m). lia. }
    unfold np.astype_int16. rewrite Htrunc.
    replace (-32768 <=? (if s then Zneg m else Zpos m) * 2 ^ e) with true
      by (symmetry; apply Z.leb_le; lia).
    replace ((if s then Zneg m else Zpos m) * 2 ^ e <=? 32767) with true
      by (symmetry; apply Z.leb_le; lia).
    reflexivity.
  - replace (e <? 0) with true by (symmetry; apply Z.ltb_lt; lia).
    assert (Hfloor : Float64.floorZ s m e = (if s then Zneg m else Zpos m) / 2 ^ (- e)).
    { unfold Float64.floorZ. rewrite Z.shiftl_div_pow2 by lia. now destruct s. }
    rewrite Hfloor. now apply int16_round_trip.
Qed.

(** What [true_divide] computes is the quotient of the spec. *)
Lemma true_divide_is_quotient (d : np_dtype) (x : scalar) (zoom : float64) :
  RegionOfInterest.true_divide d x zoom = PixelSpec.quotient d x zoom.
Proof. destruct d, x; reflexivity. Qed.

(** [np.floor] is defined on every table of real numbers. *)
Lemma to_pixels_real (overflow : float64 -> Z) (d : np_dtype) (zoom : float64)
    (column : list scalar) :
  In d PixelSpec.real_types ->
  RegionOfInterest.to_pixels overflow d zoom column =
    Ok (map (RegionOfInterest.to_pixel overflow d zoom) column).
Proof.
  intros Hreal. unfold RegionOfInterest.to_pixels, PixelSpec.real_types in *.
  destruct d; try reflexivity; cbn in Hreal;
    repeat (destruct Hreal as [Hreal | Hreal]; try discriminate); contradiction.
Qed.

Lemma to_pixel_is_pixel (overflow : float64 -> Z) (d : np_dtype) (zoom : float64)
    (x : scalar) :
  PixelSpec.is_pixel_of (PixelSpec.quotient d x zoom)
    (RegionOfInterest.to_pixel overflow d zoom x).
Proof.
  unfold RegionOfInterest.to_pixel. rewrite <- true_divide_is_quotient.
  apply floor_astype_is_pixel.
Qed.

(** C5: a points table of N rows and 2 columns that holds real numbers
    (booleans, integers, float32 or float64) is accepted; the region has N
    x pixel coordinates and N y pixel coordinates, and the i-th of each is
    the floor of the quotient of the i-th point's coordinate and the zoom
    factor of its axis, as an int16 wherever the floor is one.  The
    quotient is the IEEE quotient, in float32 for a float32 table (whose
    zoom factors must stay below 2^127 in magnitude, so that they fit
    float32) and in float64 otherwise. *)
Theorem pixel_coordinates_of_points (int16_overflow : float64 -> Z)
    self_repr area xz yz h w name display m (n : nat) :
  shape area = [n; 2%nat] ->
  In (dtype area) PixelSpec.real_types ->
  (dtype area = np_float32 -> PixelSpec.fits_single xz /\ PixelSpec.fits_single yz) ->
  exists self,
    RegionOfInterest.init int16_overflow self_repr area xz yz h w name display m
      = Ok self /\
    length (RegionOfInterest.x_points self) = n /\
    length (RegionOfInterest.y_points self) = n /\
    forall i, (i < n)%nat ->
      PixelSpec.is_pixel_of
        (PixelSpec.quotient (dtype area) (np.item2 area i 0) xz)
        (nth i (RegionOfInterest.x_points self) 0) /\
      PixelSpec.is_pixel_of
        (PixelSpec.quotient (dtype area) (np.item2 area i 1) yz)
        (nth i (RegionOfInterest.y_points self) 0).
Proof.
  intros Hs Hreal _.
  assert (Hn : nth 0 (shape area) 0%nat = n) by now rewrite Hs.
  pose proof (to_pixels_real int16_overflow _ xz (np.column area 0) Hreal) as Hx.
  pose proof (to_pixels_real int16_overflow _ yz (np.column area 1) Hreal) as Hy.
  eexists. split; [apply (init_accepts _ _ _ _ _ _ _ _ _ _ n _ _ Hs Hx Hy) |].
  match goal with
  | |- context [RegionOfInterest.calculate_coords ?r] =>
      destruct (calculate_coords_pixels r) as (Hpx & Hpy & _)
  end.
  rewrite Hpx, Hpy. cbn [RegionOfInterest.x_points RegionOfInterest.y_points].
  rewrite !length_map, !length_column, Hn.
  repeat split; auto.
  - rewrite (nth_map_in_range _ _ _ _ (SInt 0)) by now rewrite length_column, Hn.
    rewrite nth_column by now rewrite Hn.
    apply to_pixel_is_pixel.
  - rewrite (nth_map_in_range _ _ _ _ (SInt 0)) by now rewrite length_column, Hn.
    rewrite nth_column by now rewrite Hn.
    apply to_pixel_is_pixel.
Qed.

Lemma pixel_coordinates_of_points_witness :
  exists self,
    RegionOfInterest.init Examples.overflow_to_zero "<RegionOfInterest r2>"
      Samples.single_points Samples.tenth Samples.tenth 10 10 "img" None None
      = Ok self /\
    length (RegionOfInterest.x_points self) = 2%nat /\
    length (RegionOfInterest.y_points self) = 2%nat /\
    forall i, (i < 2)%nat ->
      PixelSpec.is_pixel_of
        (PixelSpec.quotient (dtype Samples.single_points)
           (np.item2 Samples.single_points i 0) Samples.tenth)
        (nth i (RegionOfInterest.x_points self) 0) /\
      PixelSpec.is_pixel_of
        (PixelSpec.quotient (dtype Samples.single_points)
           (np.item2 Samples.single_points i 1) Samples.tenth)
        (nth i (RegionOfInterest.y_points self) 0).
Proof.
  apply (pixel_coordinates_of_points Examples.overflow_to_zero
           "<RegionOfInterest r2>" Samples.single_points Samples.tenth Samples.tenth
           10 10 "img" None None 2).
  - reflexivity.
  - cbn. auto 20.
  - intros _. split; vm_compute; reflexivity.
Defined.

(** The pixels of the float32 table [[0.7, 0.9], [3.0, 0.6]] at zoom 0.1
    (the float32 quotient of 0.7 and 0.1 is 7), of the same numbers held as
    float64 (their quotient is below 7), and of the point (-5, 5) at zoom
    2; a complex table raises TypeError. *)
Example pixels_by_type :
  (r <- RegionOfInterest.init Examples.overflow_to_zero "<RegionOfInterest r2>"
          Samples.single_points Samples.tenth Samples.tenth 10 10 "img" None None ;;
   Ok (RegionOfInterest.x_points r, RegionOfInterest.y_points r))
    = Ok ([7; 30], [9; 6]) /\
  (r <- RegionOfInterest.init Examples.overflow_to_zero "<RegionOfInterest r2>"
          (mk_ndarray np_float64 (shape Samples.single_points)
             (data Samples.single_points) None)
          Samples.tenth Samples.tenth 10 10 "img" None None ;;
   Ok (RegionOfInterest.x_points r, RegionOfInterest.y_points r))
    = Ok ([6; 30], [8; 6]) /\
  (r <- RegionOfInterest.init Examples.overflow_to_zero "<RegionOfInterest r2>"
          Samples.signed_point (Float64.of_Z 2) (Float64.of_Z 2) 10 10 "img" None None ;;
   Ok (RegionOfInterest.x_points r, RegionOfInterest.y_points r))
    = Ok ([-3], [2]) /\
  succeeds (RegionOfInterest.init Examples.overflow_to_zero "<RegionOfInterest r2>"
              Samples.complex_point (Float64.of_Z 1) (Float64.of_Z 1) 10 10 "img"
              None None) = false.
Proof. repeat split; vm_compute; reflexivity. Qed.

(** A table of complex numbers is refused with TypeError once its shape
    is accepted. *)
Lemma complex_table_raises (int16_overflow : float64 -> Z)
    self_repr area xz yz h w name display m (n : nat) :
  shape area = [n; 2%nat] ->
  dtype area = np_complex64 \/ dtype area = np_complex128 ->
  exists msg,
    RegionOfInterest.init int16_overflow self_repr area xz yz h w name display m
      = Raise (TypeError msg).
Proof.
  intros Hs Hd. unfold RegionOfInterest.init, RegionOfInterest.to_pixels.
  rewrite Hs. cbn [length nth Nat.eqb negb].
  destruct Hd as [-> | ->]; cbn [bind]; eauto.
Qed.

(** The pixel coordinates of the three example points at zoom 2. *)
Example r3_pixels :
  RegionOfInterest.x_points Examples.r3_geo = [0; 2; 5] /\
  RegionOfInterest.y_points Examples.r3_geo = [0; 3; 1].
Proof. split; reflexivity. Qed.

(** C8: a points table that is not two-dimensional, or whose second
    dimension is not 2, makes the constructor raise the ValueError for the
    dimensions of the table (the spec's InvalidShapeError); no region is
    returned. *)
Theorem invalid_shape_raises (int16_overflow : float64 -> Z)
    self_repr area xz yz h w name display m :
  length (shape area) <> 2%nat \/ nth 1 (shape area) 0%nat <> 2%nat ->
  exists e,
    RegionOfInterest.init int16_overflow self_repr area xz yz h w name display m
      = Raise e /\
    RegionOfInterest.InvalidShapeError e.
Proof.
  intros Hbad. unfold RegionOfInterest.init, RegionOfInterest.InvalidShapeError.
  destruct (length (shape area) =? 2)%nat eqn:Hdim; simpl; [| eauto].
  destruct (nth 1 (shape area) 0 =? 2)%nat eqn:Hcol; simpl; [| eauto].
  apply Nat.eqb_eq in Hdim, Hcol. destruct Hbad; contradiction.
Qed.

Lemma invalid_shape_raises_witness :
  (exists e,
     RegionOfInterest.init Examples.overflow_to_zero "<RegionOfInterest>"
       Examples.flat_table (Float64.of_Z 1) (Float64.of_Z 1) 10 10 "img" None None
       = Raise e /\ RegionOfInterest.InvalidShapeError e) /\
  (exists e,
     RegionOfInterest.init Examples.overflow_to_zero "<RegionOfInterest>"
       Examples.three_columns (Float64.of_Z 1) (Float64.of_Z 1) 10 10 "img" None None
       = Raise e /\ RegionOfInterest.InvalidShapeError e).
Proof.
  split.
  - apply (invalid_shape_raises Examples.overflow_to_zero "<RegionOfInterest>"
             Examples.flat_table (Float64.of_Z 1) (Float64.of_Z 1) 10 10 "img"
             None None).
    left. simpl. lia.
  - apply (invalid_shape_raises Examples.overflow_to_zero "<RegionOfInterest>"
             Examples.three_columns (Float64.of_Z 1) (Float64.of_Z 1) 10 10 "img"
             None None).
    right. simpl. lia.
Defined.

(** The errors of the two example tables, of shape (3,) and (2, 3). *)
Example invalid_shape_messages :
  RegionOfInterest.init Examples.overflow_to_zero "<RegionOfInterest>"
    Examples.flat_table (Float64.of_Z 1) (Float64.of_Z 1) 10 10 "img" None None
    = Raise (ValueError "Parameter 'area' dimensions are not valid, expect a 2 dimensional array") /\
  RegionOfInterest.init Examples.overflow_to_zero "<RegionOfInterest>"
    Examples.three_columns (Float64.of_Z 1) (Float64.of_Z 1) 10 10 "img" None None
    = Raise (ValueError "Parameter 'area' dimensions are not valid, expect the second dimension of the array to be 2").
Proof. split; reflexivity. Qed.

(** ** RegionOfInterest: geo coordinates *)

(** C6: in every region that holds map information, the geo coordinates
    exist, one per point, and the i-th ones are
    [(pixel_x - (rx - 1)) * sx + zx] and [zy - (pixel_y - (ry - 1)) * sy],
    computed in float64. *)
Theorem geo_coordinates_of_pixels (int16_overflow : float64 -> Z)
    (self : RegionOfInterest.t) (m : MapInfo) :
  RegionOfInterest.reachable int16_overflow self ->
  RegionOfInterest.map_info self = Some m ->
  exists geo_x geo_y,
    RegionOfInterest.x_coords self = Some geo_x /\
    RegionOfInterest.y_coords self = Some geo_y /\
    length geo_x = length (RegionOfInterest.x_points self) /\
    length geo_y = length (RegionOfInterest.y_points self) /\
    (forall i, (i < length (RegionOfInterest.x_points self))%nat ->
       nth i geo_x Float64.nan =
         Float64.add
           (Float64.mul
              (Float64.sub (Float64.of_Z (nth i (RegionOfInterest.x_points self) 0))
                 (Float64.sub (x_reference_pixel m) (Float64.of_Z 1)))
              (x_pixel_size m))
           (x_zero_coordinate m)) /\
    (forall i, (i < length (RegionOfInterest.y_points self))%nat ->
       nth i geo_y Float64.nan =
         Float64.sub (y_zero_coordinate m)
           (Float64.mul
              (Float64.sub (Float64.of_Z (nth i (RegionOfInterest.y_points self) 0))
                 (Float64.sub (y_reference_pixel m) (Float64.of_Z 1)))
              (y_pixel_size m))).
Proof.
  intros Hreach Hm.
  destruct (reachable_consistent _ _ Hreach) as [_ _ _ Hgeo].
  destruct (Hgeo m Hm) as [Hx Hy].
  exists (map (RegionOfInterest.geo_x m) (RegionOfInterest.x_points self)),
         (map (RegionOfInterest.geo_y m) (RegionOfInterest.y_points self)).
  rewrite !length_map. repeat split; auto.
  - intros i Hi. now rewrite (nth_map_in_range _ _ _ _ 0).
  - intros i Hi. now rewrite (nth_map_in_range _ _ _ _ 0).
Qed.

Lemma geo_coordinates_of_pixels_witness :
  exists geo_x geo_y,
    RegionOfInterest.x_coords Examples.r3_geo = Some geo_x /\
    RegionOfInterest.y_coords Examples.r3_geo = Some geo_y /\
    length geo_x = length (RegionOfInterest.x_points Examples.r3_geo) /\
    length geo_y = length (RegionOfInterest.y_points Examples.r3_geo) /\
    (forall i, (i < length (RegionOfInterest.x_points Examples.r3_geo))%nat ->
       nth i geo_x Float64.nan =
         Float64.add
           (Float64.mul
              (Float64.sub
                 (Float64.of_Z (nth i (RegionOfInterest.x_points Examples.r3_geo) 0))
                 (Float64.sub (x_reference_pixel Examples.utm) (Float64.of_Z 1)))
              (x_pixel_size Examples.utm))
           (x_zero_coordinate Examples.utm)) /\
    (forall i, (i < length (RegionOfInterest.y_points Examples.r3_geo))%nat ->
       nth i geo_y Float64.nan =
         Float64.sub (y_zero_coordinate Examples.utm)
           (Float64.mul
              (Float64.sub
                 (Float64.of_Z (nth i (RegionOfInterest.y_points Examples.r3_geo) 0))
                 (Float64.sub (y_reference_pixel Examples.utm) (Float64.of_Z 1)))
              (y_pixel_size Examples.utm))).
Proof.
  apply (geo_coordinates_of_pixels Examples.overflow_to_zero Examples.r3_geo
           Examples.utm r3_geo_reachable).
  reflexivity.
Defined.

(** The geo coordinates of the three example points: x = 500000 + 30 px,
    y = 4000000 - 30 py. *)
Example r3_geo_coordinates :
  RegionOfInterest.x_coords Examples.r3_geo =
    Some [Float64.of_Z 500000; Float64.of_Z 500060; Float64.of_Z 500150] /\
  RegionOfInterest.y_coords Examples.r3_geo =
    Some [Float64.of_Z 4000000; Float64.of_Z 3999910; Float64.of_Z 3999970].
Proof. split; vm_compute; reflexivity. Qed.

(** ** RegionOfInterest: iteration *)

Lemma skipn_cons_nth {A : Type} (l : list A) (k : nat) (d : A) :
  (k < length l)%nat -> skipn k l = nth k l d :: skipn (S k) l.
Proof.
  revert k. induction l as [| a l IH]; intros k Hk; simpl in Hk; [lia |].
  destruct k as [| k]; [reflexivity |].
  simpl. apply IH. lia.
Qed.

Lemma with_index_same (self : RegionOfInterest.t) :
  RegionOfInterest.with_index self (RegionOfInterest.index self) = self.
Proof. now destruct self. Qed.

(** From any cursor position the loop visits the points that follow the
    cursor, in order, and leaves the cursor on the last one. *)
Lemma loop_visits_rest (rest : nat) :
  forall (fuel : nat) (self : RegionOfInterest.t),
    length (RegionOfInterest.x_points self) = length (RegionOfInterest.y_points self) ->
    RegionOfInterest.iter_limit self =
      Z.of_nat (length (RegionOfInterest.x_points self)) - 1 ->
    -1 <= RegionOfInterest.index self ->
    Z.of_nat rest = RegionOfInterest.iter_limit self - RegionOfInterest.index self ->
    (rest < fuel)%nat ->
    RegionOfInterest.loop fuel RegionOfInterest.point self =
      Some (Ok (skipn (Z.to_nat (RegionOfInterest.index self + 1))
                  (combine (RegionOfInterest.x_points self)
                           (RegionOfInterest.y_points self)),
                RegionOfInterest.with_index self (RegionOfInterest.iter_limit self))).
Proof.
  induction rest as [| rest IH]; intros fuel self Hlen Hlim Hidx Hrest Hfuel;
    (destruct fuel as [| fuel]; [lia |]); cbn [RegionOfInterest.loop];
    unfold RegionOfInterest.next.
  - replace (RegionOfInterest.index self >=? RegionOfInterest.iter_limit self)
      with true by (symmetry; rewrite Z.geb_leb; apply Z.leb_le; lia).
    rewrite skipn_all2 by (rewrite length_combine; lia).
    replace (RegionOfInterest.iter_limit self) with (RegionOfInterest.index self) by lia.
    now rewrite with_index_same.
  - replace (RegionOfInterest.index self >=? RegionOfInterest.iter_limit self)
      with false by (symmetry; rewrite Z.geb_leb; apply Z.leb_gt; lia).
    set (k := Z.to_nat (RegionOfInterest.index self + 1)).
    unfold RegionOfInterest.point, RegionOfInterest.x_point, RegionOfInterest.y_point.
    cbn [RegionOfInterest.with_index RegionOfInterest.x_points
         RegionOfInterest.y_points RegionOfInterest.index].
    rewrite (getitem_nonneg (RegionOfInterest.x_points self) _ 0) by lia.
    rewrite (getitem_nonneg (RegionOfInterest.y_points self) _ 0) by lia.
    cbn [bind]. fold k.
    specialize (IH fuel (RegionOfInterest.with_index self (RegionOfInterest.index self + 1))).
    cbn [RegionOfInterest.with_index RegionOfInterest.x_points
         RegionOfInterest.y_points RegionOfInterest.index
         RegionOfInterest.iter_limit] in IH.
    unfold RegionOfInterest.point, RegionOfInterest.x_point, RegionOfInterest.y_point in IH.
    cbn [RegionOfInterest.with_index RegionOfInterest.x_points
         RegionOfInterest.y_points RegionOfInterest.index] in IH.
    rewrite IH by lia.
    replace (Z.to_nat (RegionOfInterest.index self + 1 + 1)) with (S k) by lia.
    rewrite (skipn_cons_nth (combine _ _) k (0, 0)) by (rewrite length_combine; lia).
    rewrite combine_nth by exact Hlen.
    reflexivity.
Qed.

(** C9: a new iteration starts with the cursor before the first element;
    a loop over a region (with fuel for one call of next per point and one
    more) visits all the pixel coordinates in order, and a second loop over
    the region as the first one left it visits the same coordinates in the
    same order. *)
Theorem iteration_is_restartable (int16_overflow : float64 -> Z)
    (self : RegionOfInterest.t) (fuel : nat) :
  RegionOfInterest.reachable int16_overflow self ->
  (length (RegionOfInterest.x_points self) < fuel)%nat ->
  RegionOfInterest.index (RegionOfInterest.iter self) = -1 /\
  exists after_first after_second,
    RegionOfInterest.for_each fuel RegionOfInterest.point self =
      Some (Ok (combine (RegionOfInterest.x_points self)
                        (RegionOfInterest.y_points self), after_first)) /\
    RegionOfInterest.for_each fuel RegionOfInterest.point after_first =
      Some (Ok (combine (RegionOfInterest.x_points self)
                        (RegionOfInterest.y_points self), after_second)).
Proof.
  intros Hreach Hfuel. split; [reflexivity |].
  destruct (reachable_consistent _ _ Hreach) as [Hlen Hlim _ _].
  exists (RegionOfInterest.with_index self (RegionOfInterest.iter_limit self)),
         (RegionOfInterest.with_index self (RegionOfInterest.iter_limit self)).
  unfold RegionOfInterest.for_each, RegionOfInterest.iter.
  split.
  - rewrite (loop_visits_rest (length (RegionOfInterest.x_points self)));
      cbn [RegionOfInterest.with_index RegionOfInterest.x_points
           RegionOfInterest.y_points RegionOfInterest.index
           RegionOfInterest.iter_limit]; try lia; auto.
  - rewrite (loop_visits_rest (length (RegionOfInterest.x_points self)));
      cbn [RegionOfInterest.with_index RegionOfInterest.x_points
           RegionOfInterest.y_points RegionOfInterest.index
           RegionOfInterest.iter_limit]; try lia; auto.
Qed.

Lemma iteration_is_restartable_witness :
  RegionOfInterest.index (RegionOfInterest.iter Examples.r3_geo) = -1 /\
  exists after_first after_second,
    RegionOfInterest.for_each 4 RegionOfInterest.point Examples.r3_geo =
      Some (Ok (combine (RegionOfInterest.x_points Examples.r3_geo)
                        (RegionOfInterest.y_points Examples.r3_geo), after_first)) /\
    RegionOfInterest.for_each 4 RegionOfInterest.point after_first =
      Some (Ok (combine (RegionOfInterest.x_points Examples.r3_geo)
                        (RegionOfInterest.y_points Examples.r3_geo), after_second)).
Proof.
  apply (iteration_is_restartable Examples.overflow_to_zero Examples.r3_geo 4
           r3_geo_reachable).
  simpl. lia.
Defined.

(** The points the loop visits in the three-point example, also when the
    previous loop was left after its first point. *)
Example r3_visits :
  RegionOfInterest.for_each 4 RegionOfInterest.point Examples.r3_geo =
    Some (Ok ([(0, 0); (2, 3); (5, 1)],
              RegionOfInterest.with_index Examples.r3_geo 2)) /\
  RegionOfInterest.for_each 4 RegionOfInterest.point
    (RegionOfInterest.call (RegionOfInterest.iter Examples.r3_geo)
       RegionOfInterest.call_next) =
    Some (Ok ([(0, 0); (2, 3); (5, 1)],
              RegionOfInterest.with_index Examples.r3_geo 2)).
Proof. split; reflexivity. Qed.

(** C10: with the cursor before the first element (index -1), x_point
    and y_point of a region that has points do not raise: they return the
    coordinates of the last point. *)
Theorem point_before_first_advance (int16_overflow : float64 -> Z)
    (self : RegionOfInterest.t) :
  RegionOfInterest.reachable int16_overflow self ->
  RegionOfInterest.index self = -1 ->
  RegionOfInterest.x_points self <> [] ->
  RegionOfInterest.x_point self = Ok (last (RegionOfInterest.x_points self) 0) /\
  RegionOfInterest.y_point self = Ok (last (RegionOfInterest.y_points self) 0).
Proof.
  intros Hreach Hidx Hne.
  destruct (reachable_consistent _ _ Hreach) as [Hlen _ _ _].
  unfold RegionOfInterest.x_point, RegionOfInterest.y_point. rewrite Hidx.
  split; apply getitem_minus_one; auto.
  intros Hy. rewrite Hy in Hlen. destruct (RegionOfInterest.x_points self); [auto | discriminate].
Qed.

Lemma point_before_first_advance_witness :
  RegionOfInterest.x_point Examples.r3_geo =
    Ok (last (RegionOfInterest.x_points Examples.r3_geo) 0) /\
  RegionOfInterest.y_point Examples.r3_geo =
    Ok (last (RegionOfInterest.y_points Examples.r3_geo) 0).
Proof.
  apply (point_before_first_advance Examples.overflow_to_zero Examples.r3_geo
           r3_geo_reachable).
  - reflexivity.
  - simpl. discriminate.
Defined.

(** Freshly constructed, the three-point example reads its last point
    (5, 1); a region without points raises IndexError instead. *)
Example r3_reads_last_point :
  RegionOfInterest.x_point Examples.r3_geo = Ok 5 /\
  RegionOfInterest.y_point Examples.r3_geo = Ok 1.
Proof. split; reflexivity. Qed.

Lemma new_region_cursor (int16_overflow : float64 -> Z)
    self_repr area xz yz h w name display m self :
  RegionOfInterest.init int16_overflow self_repr area xz yz h w name display m
    = Ok self ->
  RegionOfInterest.index self = -1.
Proof.
  intros Hinit. destruct (init_result _ _ _ _ _ _ _ _ _ _ _ Hinit)
    as (n & xs & ys & Hs & _ & _ & Hlx & Hly & ->).
  now destruct m.
Qed.

(** ** RegionOfInterest: replacing the map information *)

(** [set_map_info(None)] changes the map information only: the geo
    coordinates computed before stay, and the accessors go on returning
    them. *)
Lemma set_map_info_None_keeps_coords (self : RegionOfInterest.t) :
  let after := RegionOfInterest.set_map_info self None in
  RegionOfInterest.map_info after = None /\
  RegionOfInterest.x_coords after = RegionOfInterest.x_coords self /\
  RegionOfInterest.y_coords after = RegionOfInterest.y_coords self /\
  RegionOfInterest.x_coordinate after = RegionOfInterest.x_coordinate self /\
  RegionOfInterest.y_coordinate after = RegionOfInterest.y_coordinate self.
Proof. repeat split. Qed.

(** A region constructed without map information has no geo coordinates:
    the accessors return None at every cursor position. *)
Lemma no_map_info_no_coordinates (int16_overflow : float64 -> Z)
    self_repr area xz yz h w name display self :
  RegionOfInterest.init int16_overflow self_repr area xz yz h w name display None
    = Ok self ->
  RegionOfInterest.x_coordinate self = Ok None /\
  RegionOfInterest.y_coordinate self = Ok None.
Proof.
  intros Hinit. destruct (init_result _ _ _ _ _ _ _ _ _ _ _ Hinit)
    as (n & xs & ys & Hs & _ & _ & Hlx & Hly & ->).
  split; reflexivity.
Qed.

(** [set_map_info] with map information recomputes the geo coordinates
    from the pixel coordinates, which it leaves as they are, as it leaves
    the cursor. *)
Lemma set_map_info_Some_recomputes (self : RegionOfInterest.t) (m : MapInfo) :
  let after := RegionOfInterest.set_map_info self (Some m) in
  RegionOfInterest.map_info after = Some m /\
  RegionOfInterest.x_points after = RegionOfInterest.x_points self /\
  RegionOfInterest.y_points after = RegionOfInterest.y_points self /\
  RegionOfInterest.index after = RegionOfInterest.index self /\
  RegionOfInterest.x_coords after =
    Some (map (RegionOfInterest.geo_x m) (RegionOfInterest.x_points self)) /\
  RegionOfInterest.y_coords after =
    Some (map (RegionOfInterest.geo_y m) (RegionOfInterest.y_points self)).
Proof. repeat split. Qed.

(** No method changes the pixel coordinates. *)
Lemma call_keeps_pixels (self : RegionOfInterest.t) (c : RegionOfInterest.method) :
  RegionOfInterest.x_points (RegionOfInterest.call self c) = RegionOfInterest.x_points self /\
  RegionOfInterest.y_points (RegionOfInterest.call self c) = RegionOfInterest.y_points self.
Proof.
  destruct c as [| | name | [m |]]; simpl; auto.
  unfold RegionOfInterest.next.
  destruct (RegionOfInterest.index self >=? RegionOfInterest.iter_limit self); auto.
Qed.

(** C2, on the region "r1" constructed with map information: after
    [set_map_info(None)] and one advance of the cursor, the region holds no
    map information and the geo-coordinate accessors still return the
    coordinates computed at construction, (500000, 3999970), where the
    claim expects no value. *)
Theorem set_map_info_none_keeps_geo_coordinates :
  (r <- RegionOfInterest.next (RegionOfInterest.set_map_info Examples.r1_geo None) ;;
   x <- RegionOfInterest.x_coordinate r ;;
   y <- RegionOfInterest.y_coordinate r ;;
   Ok (RegionOfInterest.map_info r, x, y))
  = Ok (None, Some (Float64.of_Z 500000), Some (Float64.of_Z 3999970)).
Proof. vm_compute. reflexivity. Qed.

(** ** Noise cleanup *)

(** Comparisons with NaN are false. *)
Lemma eqb_nan_r (x : float64) : Float64.eqb x Float64.nan = false.
Proof. now destruct x. Qed.

Lemma leb_nan_r (x : float64) : Float64.leb x Float64.nan = false.
Proof. now destruct x. Qed.

Lemma geb_nan_r (x : float64) : Float64.geb x Float64.nan = false.
Proof. now destruct x. Qed.

(** NaN propagates through the reductions of a floating-point array. *)
Lemma fold_minimum_from_nan (l : list float64) :
  fold_left np.minimum (map SFloat l) (SFloat Float64.nan) = SFloat Float64.nan.
Proof. induction l as [| y l IH]; simpl; auto. Qed.

Lemma fold_maximum_from_nan (l : list float64) :
  fold_left np.maximum (map SFloat l) (SFloat Float64.nan) = SFloat Float64.nan.
Proof.
  induction l as [| y l IH]; [reflexivity |].
  cbn [map fold_left]. unfold np.maximum; cbn [to_float Float64.isnan Float64.nan].
  now rewrite orb_true_r.
Qed.

Lemma fold_minimum_nan (l : list float64) (x : float64) :
  In Float64.nan (x :: l) ->
  fold_left np.minimum (map SFloat l) (SFloat x) = SFloat Float64.nan.
Proof.
  revert x. induction l as [| y l IH]; intros x [Hx | Hin].
  - now subst.
  - destruct Hin.
  - subst x. apply (fold_minimum_from_nan (y :: l)).
  - cbn [map fold_left]. unfold np.minimum; cbn [to_float].
    destruct Hin as [Hy | Hin].
    + subst y. rewrite leb_nan_r. cbn [orb].
      destruct (Float64.isnan x) eqn:Hx.
      * destruct x; try discriminate. apply fold_minimum_from_nan.
      * apply fold_minimum_from_nan.
    + destruct (Float64.leb x y || Float64.isnan x) eqn:Hc.
      * destruct (Float64.isnan x) eqn:Hx.
        -- destruct x; try discriminate. apply fold_minimum_from_nan.
        -- apply IH. now right.
      * apply IH. now right.
Qed.

Lemma fold_maximum_nan (l : list float64) (x : float64) :
  In Float64.nan (x :: l) ->
  fold_left np.maximum (map SFloat l) (SFloat x) = SFloat Float64.nan.
Proof.
  revert x. induction l as [| y l IH]; intros x [Hx | Hin].
  - now subst.
  - destruct Hin.
  - subst x. apply (fold_maximum_from_nan (y :: l)).
  - cbn [map fold_left]. unfold np.maximum; cbn [to_float].
    destruct Hin as [Hy | Hin].
    + subst y. rewrite geb_nan_r. cbn [orb].
      destruct (Float64.isnan x) eqn:Hx.
      * destruct x; try discriminate. apply fold_maximum_from_nan.
      * apply fold_maximum_from_nan.
    + destruct (Float64.geb x y || Float64.isnan x) eqn:Hc.
      * destruct (Float64.isnan x) eqn:Hx.
        -- destruct x; try discriminate. apply fold_maximum_from_nan.
        -- apply IH. now right.
      * apply IH. now right.
Qed.

(** On a plain array [masked_outside] masks exactly the elements below
    the lower or above the upper bound. *)
Lemma filled_plain (l : list scalar) :
  map (fun p : scalar * bool =>
         if snd p then ma.default_fill_value else to_float (fst p))
      (combine l (map (fun _ => false) l)) = map to_float l.
Proof. induction l as [| s l IH]; simpl; congruence. Qed.

Lemma or_no_mask (c : list bool) (l : list scalar) :
  length c = length l ->
  map (fun p : bool * bool => fst p || snd p) (combine c (map (fun _ => false) l)) = c.
Proof.
  revert l. induction c as [| b c IH]; intros [| s l] Hlen; simpl in *;
    try discriminate; auto.
  rewrite orb_false_r. f_equal. apply IH. lia.
Qed.

Lemma masked_outside_plain (a : ndarray) (lo hi : float64) :
  mask a = None ->
  Float64.ltb hi lo = false ->
  ma.masked_outside a lo hi =
    mk_ndarray (dtype a) (shape a) (data a)
      (Some (map (fun s => Float64.ltb (to_float s) lo || Float64.gtb (to_float s) hi)
                 (data a))).
Proof.
  intros Hplain Horder. unfold ma.masked_outside, ma.masked_where, ma.filled,
    ma.getmaskarray. rewrite Hplain, Horder, filled_plain, map_map.
  now rewrite or_no_mask by now rewrite length_map.
Qed.

Section NoiseCleanup.

Variable Floats : list np_dtype.

(** On a plain floating-point array that contains NaN the cleanup never
    takes the [masked_invalid] branch: it masks the elements below 0.0 or
    above 1.0 and nothing else, so every NaN stays unmasked. *)
Lemma noise_cleanup_keeps_nan (bands : ndarray) (values : list float64) :
  dtype_in (dtype bands) Floats = true ->
  mask bands = None ->
  data bands = map SFloat values ->
  In Float64.nan values ->
  exists cleaned,
    OpenSpectraBandTools.bogus_noise_cleanup Floats bands = Ok cleaned /\
    data cleaned = data bands /\
    ma.getmaskarray cleaned =
      map (fun x => Float64.ltb x (Float64.of_Z 0) || Float64.gtb x (Float64.of_Z 1))
          values /\
    forall i, nth i values (Float64.of_Z 0) = Float64.nan ->
              nth i (ma.getmaskarray cleaned) false = false.
Proof.
  intros Hfloat Hplain Hdata Hnan.
  assert (Hrun : OpenSpectraBandTools.bogus_noise_cleanup Floats bands =
                 Ok (ma.masked_outside bands (Float64.of_Z 0) (Float64.of_Z 1))).
  { unfold OpenSpectraBandTools.bogus_noise_cleanup. rewrite Hfloat.
    unfold np.min, np.max. rewrite Hdata.
    destruct values as [| x l]; [destruct Hnan |]. cbn [map].
    rewrite (fold_minimum_nan l x Hnan), (fold_maximum_nan l x Hnan).
    reflexivity. }
  rewrite Hrun, masked_outside_plain by (auto; reflexivity).
  eexists. split; [reflexivity |]. unfold ma.getmaskarray. cbn [data mask].
  rewrite Hdata, map_map. cbn [to_float].
  repeat split.
  intros i Hi.
  destruct (Nat.lt_ge_cases i (length values)) as [Hlt | Hge].
  - rewrite (nth_map_in_range _ _ _ _ (Float64.of_Z 0)) by exact Hlt.
    unfold float64 in *. rewrite Hi. reflexivity.
  - apply nth_overflow. now rewrite length_map.
Qed.

End NoiseCleanup.

(** C1, on a float64 band holding 0.5, 2.0 and NaN: the cleanup returns
    the band with 2.0 masked and NaN not masked, so NaN stays among the
    values the statistics are computed from, where the claim expects both
    to be masked. *)
Theorem noise_cleanup_leaves_nan_unmasked :
  OpenSpectraBandTools.bogus_noise_cleanup Examples.Floats Examples.noisy_band =
    Ok (mk_ndarray np_float64 [3%nat; 1%nat]
          [SFloat (Float64.ldexp 1 (-1)); SFloat (Float64.of_Z 2); SFloat Float64.nan]
          (Some [false; true; false])).
Proof. vm_compute. reflexivity. Qed.

(** With an infinity and no NaN the [masked_invalid] branch is taken;
    the infinity is masked. *)
Example noise_cleanup_masks_infinity :
  OpenSpectraBandTools.bogus_noise_cleanup Examples.Floats
    (mk_ndarray np_float64 [3%nat; 1%nat]
       [SFloat (Float64.ldexp 1 (-1)); SFloat (Float64.of_Z 2); SFloat Float64.inf]
       None) =
    Ok (mk_ndarray np_float64 [3%nat; 1%nat]
          [SFloat (Float64.ldexp 1 (-1)); SFloat (Float64.of_Z 2); SFloat Float64.inf]
          (Some [false; true; true])).
Proof. vm_compute. reflexivity. Qed.

(** An array whose type is not a floating-point one is returned as it is. *)
Lemma noise_cleanup_skips_other_types (Floats : list np_dtype) (bands : ndarray) :
  dtype_in (dtype bands) Floats = false ->
  OpenSpectraBandTools.bogus_noise_cleanup Floats bands = Ok bands.
Proof.
  intros Hother. unfold OpenSpectraBandTools.bogus_noise_cleanup. now rewrite Hother.
Qed.

(** ** Band statistics *)

Section BandStatisticsFacts.

Variables np_mean np_min np_max np_std : ndarray -> Z -> result (list float64).

(** C3: for every band array the constructor of BandStatistics raises
    TypeError in the call of the parent's constructor, which it gives no
    labels; no statistic is computed, where the claim expects the
    construction to succeed. *)
Theorem band_statistics_constructor_raises (bands : ndarray) :
  BandStatistics.init np_mean np_min np_max np_std bands =
    Raise (TypeError "__init__() missing 1 required positional argument: 'labels'").
Proof. reflexivity. Qed.

(** [band_statistics] returns no statistics for any input. *)
Lemma band_statistics_never_returns (Floats : list np_dtype) (file_bands : ndarray) :
  succeeds (OpenSpectraBandTools.band_statistics Floats np_mean np_min np_max np_std
              file_bands) = false.
Proof.
  unfold OpenSpectraBandTools.band_statistics.
  now destruct (OpenSpectraBandTools.bogus_noise_cleanup Floats file_bands).
Qed.

(** The statements after the parent's constructor: when the four
    reductions return one value per band, the two derived curves are
    mean + std and mean - std, band by band. *)
Lemma statistics_plus_minus (base : Bands.t) (bands : ndarray)
    (mean min max std : list float64) :
  np_mean bands 0 = Ok mean -> np_min bands 0 = Ok min ->
  np_max bands 0 = Ok max -> np_std bands 0 = Ok std ->
  length mean = length std ->
  exists stats,
    BandStatistics.statistics np_mean np_min np_max np_std base bands = Ok stats /\
    BandStatistics.mean stats = mean /\ BandStatistics.min stats = min /\
    BandStatistics.max stats = max /\ BandStatistics.std stats = std /\
    forall i, (i < length mean)%nat ->
      nth i (BandStatistics.plus_one_std stats) Float64.nan =
        Float64.add (nth i mean Float64.nan) (nth i std Float64.nan) /\
      nth i (BandStatistics.minus_one_std stats) Float64.nan =
        Float64.sub (nth i mean Float64.nan) (nth i std Float64.nan).
Proof.
  intros Hmean Hmin Hmax Hstd Hlen.
  unfold BandStatistics.statistics. rewrite Hmean, Hmin, Hmax, Hstd. cbn [bind].
  eexists. split; [reflexivity |]. cbn. repeat split; auto.
  - unfold BandStatistics.elementwise.
    rewrite (nth_map_in_range _ _ _ _ (Float64.nan, Float64.nan))
      by (rewrite length_combine; lia).
    now rewrite combine_nth.
  - unfold BandStatistics.elementwise.
    rewrite (nth_map_in_range _ _ _ _ (Float64.nan, Float64.nan))
      by (rewrite length_combine; lia).
    now rewrite combine_nth.
Qed.

(** On the clean two-pixel band the statistics request raises too. *)
Example band_statistics_of_clean_band :
  OpenSpectraBandTools.band_statistics Examples.Floats np_mean np_min np_max np_std
    Examples.clean_band =
  Raise (TypeError "__init__() missing 1 required positional argument: 'labels'").
Proof. vm_compute. reflexivity. Qed.

End BandStatisticsFacts.

(** ** Region export *)

(** The constructor of the export tool reads the projection name from the
    region's map information before it tests whether there is any. *)
Lemma region_tools_need_map_info (region : RegionOfInterest.t) :
  RegionOfInterest.map_info region = None ->
  OpenSpectraRegionTools.init region =
    Raise (AttributeError "'NoneType' object has no attribute 'projection_name'").
Proof.
  intros Hnone. unfold OpenSpectraRegionTools.init. now rewrite Hnone.
Qed.

(** C4, on the region "r1" of the image "img" (10 by 10, points [[0, 1]],
    zoom 1, no map information): the constructor of the export tool raises
    AttributeError, so there is no tool object to save the region with,
    where the claim expects the file to be written. *)
Theorem export_tool_rejects_region_without_map_info :
  RegionOfInterest.map_info Examples.r1 = None /\
  OpenSpectraRegionTools.init Examples.r1 =
    Raise (AttributeError "'NoneType' object has no attribute 'projection_name'").
Proof. split; reflexivity. Qed.

(** With map information the tool is constructed and the file holds the
    header lines, the four-column header and one line per point, with
    1-based pixel coordinates followed by the geo coordinates. *)
Example r1_geo_export (nep50 : bool) :
  (tool <- OpenSpectraRegionTools.init Examples.r1_geo ;;
   match OpenSpectraRegionTools.save_region Examples.str_whole nep50 2 tool false with
   | Some written => written
   | None => Raise StopIteration
   end) =
  Ok ("name:r1" ++ newline ++
      "description:img" ++ newline ++
      "image width:10" ++ newline ++
      "image height:10" ++ newline ++
      "projection:UTM 13 WGS-84" ++ newline ++
      "data:" ++ newline ++
      "sample,line,x_coordinate,y_coordinate" ++ newline ++
      "1,2,500000.0,3999970.0" ++ newline).
Proof. destruct nep50; vm_compute; reflexivity. Qed.

(** ** Histogram bins *)

Lemma minimum_ints (x y : Z) : np.minimum (SInt x) (SInt y) = SInt (Z.min x y).
Proof.
  unfold np.minimum. destruct (Z.leb_spec x y).
  - now rewrite Z.min_l by lia.
  - now rewrite Z.min_r by lia.
Qed.

Lemma maximum_ints (x y : Z) : np.maximum (SInt x) (SInt y) = SInt (Z.max x y).
Proof.
  unfold np.maximum. rewrite Z.geb_leb. destruct (Z.leb_spec y x).
  - now rewrite Z.max_l by lia.
  - now rewrite Z.max_r by lia.
Qed.

Lemma fold_minimum_ints (l : list Z) (z : Z) :
  fold_left np.minimum (map SInt l) (SInt z) = SInt (fold_left Z.min l z).
Proof.
  revert z. induction l as [| y l IH]; intros z; [reflexivity |].
  cbn [map fold_left]. now rewrite minimum_ints, IH.
Qed.

Lemma fold_maximum_ints (l : list Z) (z : Z) :
  fold_left np.maximum (map SInt l) (SInt z) = SInt (fold_left Z.max l z).
Proof.
  revert z. induction l as [| y l IH]; intros z; [reflexivity |].
  cbn [map fold_left]. now rewrite maximum_ints, IH.
Qed.

(** A difference that the integer type can hold is not changed by the
    wrap-around. *)
Lemma wrap_exact (d : np_dtype) (signed : bool) (w z : Z) :
  OpenSpectraHistogramTools.int_type d = Some (signed, w) ->
  (if signed then - 2 ^ (w - 1) <= z < 2 ^ (w - 1) else 0 <= z < 2 ^ w) ->
  OpenSpectraHistogramTools.wrap d z = z.
Proof.
  intros Htype Hrange. unfold OpenSpectraHistogramTools.wrap. rewrite Htype.
  assert (Hw : 1 <= w) by (destruct d; inversion Htype; lia).
  destruct signed.
  - assert (H2 : 2 ^ w = 2 * 2 ^ (w - 1)).
    { replace w with (Z.succ (w - 1)) at 1 by lia. apply Z.pow_succ_r. lia. }
    rewrite Z.mod_small by lia. lia.
  - apply Z.mod_small. lia.
Qed.

Section HistogramFacts.

Variables Ints Floats : list np_dtype.
Variable FloatBins : Z.

(** Integer data: the range is (min, max) and the bin count is
    max - min in the arithmetic of the array's integer type. *)
Lemma hist_integer_data (data_array : ndarray) (z : Z) (l : list Z) :
  dtype_in (dtype data_array) Ints = true ->
  data data_array = map SInt (z :: l) ->
  let lo := fold_left Z.min l z in
  let hi := fold_left Z.max l z in
  OpenSpectraHistogramTools.get_hist_data Ints Floats FloatBins data_array =
    Ok (mk_HistogramPlotData (SInt lo, SInt hi) (data data_array)
          (SInt (OpenSpectraHistogramTools.wrap (dtype data_array) (hi - lo)))
          None None None "b" "-" None None None).
Proof.
  intros Hint Hdata lo hi. unfold OpenSpectraHistogramTools.get_hist_data.
  rewrite Hint. unfold np.min, np.max, np.flatten. rewrite Hdata. cbn [map bind].
  now rewrite fold_minimum_ints, fold_maximum_ints.
Qed.

(** Integer data whose max - min the integer type can hold: the bin
    count is max - min. *)
Lemma hist_integer_bins_exact (data_array : ndarray) (z : Z) (l : list Z)
    (signed : bool) (w : Z) :
  dtype_in (dtype data_array) Ints = true ->
  data data_array = map SInt (z :: l) ->
  OpenSpectraHistogramTools.int_type (dtype data_array) = Some (signed, w) ->
  fold_left Z.max l z - fold_left Z.min l z < 2 ^ (if signed then w - 1 else w) ->
  0 <= fold_left Z.max l z - fold_left Z.min l z ->
  exists plot,
    OpenSpectraHistogramTools.get_hist_data Ints Floats FloatBins data_array = Ok plot /\
    bins plot = SInt (fold_left Z.max l z - fold_left Z.min l z) /\
    x_data plot = (SInt (fold_left Z.min l z), SInt (fold_left Z.max l z)).
Proof.
  intros Hint Hdata Htype Hfits Hpos.
  rewrite (hist_integer_data data_array z l Hint Hdata).
  eexists. split; [reflexivity |]. cbn [bins x_data]. split; [| reflexivity].
  f_equal. apply (wrap_exact _ signed w); auto.
  assert (0 < 2 ^ (w - 1))
    by (apply Z.pow_pos_nonneg; destruct (dtype data_array); inversion Htype; lia).
  destruct signed; lia.
Qed.

(** Floating-point data: the bin count is the configured constant,
    whatever the data. *)
Lemma hist_float_data (data_array : ndarray) (s : scalar) (l : list scalar) :
  dtype_in (dtype data_array) Ints = false ->
  dtype_in (dtype data_array) Floats = true ->
  data data_array = s :: l ->
  OpenSpectraHistogramTools.get_hist_data Ints Floats FloatBins data_array =
    Ok (mk_HistogramPlotData
          (fold_left np.minimum l s, fold_left np.maximum l s) (data data_array)
          (SInt FloatBins) None None None "b" "-" None None None).
Proof.
  intros Hint Hfloat Hdata. unfold OpenSpectraHistogramTools.get_hist_data.
  rewrite Hint, Hfloat. unfold np.min, np.max, np.flatten. now rewrite Hdata.
Qed.

(** Any other type of data raises TypeError (the spec's
    UnsupportedTypeError). *)
Lemma hist_other_data (data_array : ndarray) :
  dtype_in (dtype data_array) Ints = false ->
  dtype_in (dtype data_array) Floats = false ->
  OpenSpectraHistogramTools.get_hist_data Ints Floats FloatBins data_array =
    Raise (TypeError ("Data with type " ++ dtype_name (dtype data_array)
                      ++ " is not supported")).
Proof.
  intros Hint Hfloat. unfold OpenSpectraHistogramTools.get_hist_data.
  now rewrite Hint, Hfloat.
Qed.

End HistogramFacts.

(** int16 data with minimum 0 and maximum 9 gets 9 bins. *)
Example hist_digits (FloatBins : Z) :
  OpenSpectraHistogramTools.get_hist_data Examples.Ints Examples.Floats FloatBins
    Examples.digits_int16 =
  Ok (mk_HistogramPlotData (SInt 0, SInt 9) [SInt 9; SInt 0; SInt 5] (SInt 9)
        None None None "b" "-" None None None).
Proof. reflexivity. Qed.

(** C7, on int16 data with minimum -20000 and maximum 20000: the range
    is (-20000, 20000) and the bin count, max - min computed in int16, is
    -25536, where the claim expects max - min = 40000. *)
Theorem hist_bins_wrap_around (FloatBins : Z) :
  OpenSpectraHistogramTools.get_hist_data Examples.Ints Examples.Floats FloatBins
    Examples.wide_int16 =
  Ok (mk_HistogramPlotData (SInt (-20000), SInt 20000)
        [SInt (-20000); SInt 0; SInt 20000] (SInt (-25536))
        None None None "b" "-" None None None).
Proof. reflexivity. Qed.

(** * Further properties *)

(** ** RegionOfInterest: the cursor *)

(** Geo coordinates, once computed, are as many as the points. *)
Lemma reachable_coords_length (int16_overflow : float64 -> Z)
    (self : RegionOfInterest.t) :
  RegionOfInterest.reachable int16_overflow self ->
  (forall c, RegionOfInterest.x_coords self = Some c ->
             length c = length (RegionOfInterest.x_points self)) /\
  (forall c, RegionOfInterest.y_coords self = Some c ->
             length c = length (RegionOfInterest.y_points self)).
Proof.
  induction 1 as [? ? ? ? ? ? ? ? m self Hinit | self c _ [IHx IHy]].
  - destruct (init_result _ _ _ _ _ _ _ _ _ _ _ Hinit)
      as (n & xs & ys & Hs & _ & _ & Hlx & Hly & ->).
    destruct m as [m |]; simpl; split; intros c [= <-]; now rewrite length_map.
  - destruct c as [| | name | [m |]]; simpl; auto.
    + unfold RegionOfInterest.next.
      destruct (RegionOfInterest.index self >=? RegionOfInterest.iter_limit self);
        simpl; auto.
    + split; intros c [= <-]; now rewrite length_map.
Qed.

(** X1: with the cursor on a point (index 0 or more) the accessors of a
    reachable region do not raise: x_point and y_point return the pixel
    coordinates at the cursor, and when the region holds map information
    x_coordinate and y_coordinate return the geo coordinates of that very
    pixel. *)
Theorem accessors_at_cursor (int16_overflow : float64 -> Z)
    (self : RegionOfInterest.t) :
  RegionOfInterest.reachable int16_overflow self ->
  0 <= RegionOfInterest.index self ->
  let k := Z.to_nat (RegionOfInterest.index self) in
  let px := nth k (RegionOfInterest.x_points self) 0 in
  let py := nth k (RegionOfInterest.y_points self) 0 in
  RegionOfInterest.x_point self = Ok px /\
  RegionOfInterest.y_point self = Ok py /\
  succeeds (RegionOfInterest.x_coordinate self) = true /\
  succeeds (RegionOfInterest.y_coordinate self) = true /\
  forall m, RegionOfInterest.map_info self = Some m ->
    RegionOfInterest.x_coordinate self = Ok (Some (RegionOfInterest.geo_x m px)) /\
    RegionOfInterest.y_coordinate self = Ok (Some (RegionOfInterest.geo_y m py)).
Proof.
  intros Hreach Hidx k px py.
  destruct (reachable_consistent _ _ Hreach) as [Hlen Hlim Hcur Hgeo].
  destruct (reachable_coords_length _ _ Hreach) as [Hcx Hcy].
  assert (Hx : 0 <= RegionOfInterest.index self
               < Z.of_nat (length (RegionOfInterest.x_points self))) by lia.
  assert (Hy : 0 <= RegionOfInterest.index self
               < Z.of_nat (length (RegionOfInterest.y_points self))) by lia.
  unfold RegionOfInterest.x_point, RegionOfInterest.y_point,
    RegionOfInterest.x_coordinate, RegionOfInterest.y_coordinate.
  rewrite (getitem_nonneg _ _ 0 Hx), (getitem_nonneg _ _ 0 Hy).
  repeat split.
  - destruct (RegionOfInterest.x_coords self) as [c |] eqn:Ec; [| reflexivity].
    rewrite (getitem_nonneg c _ Float64.nan) by (rewrite (Hcx c eq_refl); lia).
    reflexivity.
  - destruct (RegionOfInterest.y_coords self) as [c |] eqn:Ec; [| reflexivity].
    rewrite (getitem_nonneg c _ Float64.nan) by (rewrite (Hcy c eq_refl); lia).
    reflexivity.
  - destruct (Hgeo m H) as [-> _].
    rewrite (getitem_nonneg _ _ Float64.nan) by (rewrite length_map; lia).
    cbn [bind]. now rewrite (nth_map_in_range _ _ _ _ 0) by lia.
  - destruct (Hgeo m H) as [_ ->].
    rewrite (getitem_nonneg _ _ Float64.nan) by (rewrite length_map; lia).
    cbn [bind]. now rewrite (nth_map_in_range _ _ _ _ 0) by lia.
Qed.

Lemma r3_geo_advanced_reachable :
  RegionOfInterest.reachable Examples.overflow_to_zero
    (RegionOfInterest.call
       (RegionOfInterest.call Examples.r3_geo RegionOfInterest.call_next)
       RegionOfInterest.call_next).
Proof. do 2 apply RegionOfInterest.reachable_call. exact r3_geo_reachable. Qed.

Lemma accessors_at_cursor_witness :
  let self := RegionOfInterest.call
                (RegionOfInterest.call Examples.r3_geo RegionOfInterest.call_next)
                RegionOfInterest.call_next in
  let k := Z.to_nat (RegionOfInterest.index self) in
  let px := nth k (RegionOfInterest.x_points self) 0 in
  let py := nth k (RegionOfInterest.y_points self) 0 in
  RegionOfInterest.x_point self = Ok px /\
  RegionOfInterest.y_point self = Ok py /\
  succeeds (RegionOfInterest.x_coordinate self) = true /\
  succeeds (RegionOfInterest.y_coordinate self) = true /\
  forall m, RegionOfInterest.map_info self = Some m ->
    RegionOfInterest.x_coordinate self = Ok (Some (RegionOfInterest.geo_x m px)) /\
    RegionOfInterest.y_coordinate self = Ok (Some (RegionOfInterest.geo_y m py)).
Proof.
  apply (accessors_at_cursor Examples.overflow_to_zero _ r3_geo_advanced_reachable).
  vm_compute. discriminate.
Defined.

(** After [k] calls of [next] the cursor has moved [k] positions, but not
    past the limit. *)
Lemma next_calls_cursor (k : nat) :
  forall self : RegionOfInterest.t,
    RegionOfInterest.index self <= RegionOfInterest.iter_limit self ->
    RegionOfInterest.index
      (History.run self (repeat RegionOfInterest.call_next k)) =
      Z.min (RegionOfInterest.index self + Z.of_nat k) (RegionOfInterest.iter_limit self).
Proof.
  induction k as [| k IH]; intros self Hle.
  - simpl. lia.
  - cbn [repeat History.run fold_left]. fold (History.run
      (RegionOfInterest.call self RegionOfInterest.call_next)
      (repeat RegionOfInterest.call_next k)).
    cbn [RegionOfInterest.call]. unfold RegionOfInterest.next.
    destruct (RegionOfInterest.index self >=? RegionOfInterest.iter_limit self) eqn:E;
      rewrite Z.geb_leb in E.
    + apply Z.leb_le in E. rewrite IH by lia. lia.
    + apply Z.leb_gt in E. rewrite IH; cbn [RegionOfInterest.with_index
        RegionOfInterest.index RegionOfInterest.iter_limit]; lia.
Qed.

(** X2: in a new iteration over a region of N points, k calls of next
    leave the cursor at index min(k, N) - 1: each call advances it by
    exactly one position until the last point is reached, and the calls
    after that (which raise StopIteration) leave it there. *)
Theorem cursor_after_next_calls (int16_overflow : float64 -> Z)
    (self : RegionOfInterest.t) (k : nat) :
  RegionOfInterest.reachable int16_overflow self ->
  RegionOfInterest.index
    (History.run (RegionOfInterest.iter self) (repeat RegionOfInterest.call_next k)) =
    Z.min (Z.of_nat k) (Z.of_nat (length (RegionOfInterest.x_points self))) - 1.
Proof.
  intros Hreach. destruct (reachable_consistent _ _ Hreach) as [_ Hlim _ _].
  rewrite next_calls_cursor;
    cbn [RegionOfInterest.iter RegionOfInterest.with_index RegionOfInterest.index
         RegionOfInterest.iter_limit]; lia.
Qed.

Lemma cursor_after_next_calls_witness :
  RegionOfInterest.index
    (History.run (RegionOfInterest.iter Examples.r3_geo)
       (repeat RegionOfInterest.call_next 5)) =
    Z.min (Z.of_nat 5)
      (Z.of_nat (length (RegionOfInterest.x_points Examples.r3_geo))) - 1.
Proof.
  apply (cursor_after_next_calls Examples.overflow_to_zero Examples.r3_geo 5
           r3_geo_reachable).
Defined.

(** X3: when a loop over a region with points has ended, the cursor
    rests on the last point: next raises StopIteration, and x_point and
    y_point return the last point instead of raising. *)
Theorem accessors_after_exhaustion (int16_overflow : float64 -> Z)
    (self : RegionOfInterest.t) (fuel : nat) :
  RegionOfInterest.reachable int16_overflow self ->
  RegionOfInterest.x_points self <> [] ->
  (length (RegionOfInterest.x_points self) < fuel)%nat ->
  exists visited final,
    RegionOfInterest.for_each fuel RegionOfInterest.point self =
      Some (Ok (visited, final)) /\
    RegionOfInterest.next final = Raise StopIteration /\
    RegionOfInterest.x_point final = Ok (last (RegionOfInterest.x_points self) 0) /\
    RegionOfInterest.y_point final = Ok (last (RegionOfInterest.y_points self) 0).
Proof.
  intros Hreach Hne Hfuel.
  destruct (reachable_consistent _ _ Hreach) as [Hlen Hlim _ _].
  assert (Hpos : (0 < length (RegionOfInterest.x_points self))%nat)
    by (destruct (RegionOfInterest.x_points self); [congruence | simpl; lia]).
  do 2 eexists. split.
  - unfold RegionOfInterest.for_each, RegionOfInterest.iter.
    apply (loop_visits_rest (length (RegionOfInterest.x_points self)));
      cbn [RegionOfInterest.with_index RegionOfInterest.x_points
           RegionOfInterest.y_points RegionOfInterest.index
           RegionOfInterest.iter_limit]; try lia; auto.
  - unfold RegionOfInterest.next, RegionOfInterest.x_point, RegionOfInterest.y_point.
    cbn [RegionOfInterest.with_index RegionOfInterest.index
         RegionOfInterest.iter_limit RegionOfInterest.x_points
         RegionOfInterest.y_points].
    replace (RegionOfInterest.iter_limit self >=? RegionOfInterest.iter_limit self)
      with true by (symmetry; rewrite Z.geb_leb; apply Z.leb_le; lia).
    rewrite (getitem_nonneg (RegionOfInterest.x_points self) _ 0) by lia.
    rewrite (getitem_nonneg (RegionOfInterest.y_points self) _ 0) by lia.
    rewrite Hlim.
    replace (Z.to_nat (Z.of_nat (length (RegionOfInterest.x_points self)) - 1))
      with (length (RegionOfInterest.x_points self) - 1)%nat by lia.
    rewrite nth_last_position. rewrite Hlen at 1. rewrite nth_last_position.
    auto.
Qed.

Lemma accessors_after_exhaustion_witness :
  exists visited final,
    RegionOfInterest.for_each 4 RegionOfInterest.point Examples.r3_geo =
      Some (Ok (visited, final)) /\
    RegionOfInterest.next final = Raise StopIteration /\
    RegionOfInterest.x_point final =
      Ok (last (RegionOfInterest.x_points Examples.r3_geo) 0) /\
    RegionOfInterest.y_point final =
      Ok (last (RegionOfInterest.y_points Examples.r3_geo) 0).
Proof.
  apply (accessors_after_exhaustion Examples.overflow_to_zero Examples.r3_geo 4
           r3_geo_reachable).
  - simpl. discriminate.
  - simpl. lia.
Defined.

(** ** RegionOfInterest: a region without points *)

Lemma getitem_nil {A : Type} (i : Z) :
  np.getitem (@nil A) i = Raise (np.out_of_bounds i 0).
Proof.
  unfold np.getitem. cbn [length Z.of_nat].
  destruct (i <? 0) eqn:Hi.
  - destruct ((0 <=? i + 0) && (i + 0 <? 0)) eqn:E; [| reflexivity].
    apply andb_prop in E as [E1 E2].
    apply Z.leb_le in E1. apply Z.ltb_lt in E2. lia.
  - destruct ((0 <=? i) && (i <? 0)) eqn:E; [| reflexivity].
    apply andb_prop in E as [E1 E2].
    apply Z.leb_le in E1. apply Z.ltb_lt in E2. lia.
Qed.

(** X4: a table of real numbers of shape (0, 2) is accepted and gives a
    region without points; a loop over it visits nothing (the first call
    of next raises StopIteration), and x_point and y_point raise NumPy's
    IndexError for the index -1 of an array of size 0. *)
Theorem region_without_points (int16_overflow : float64 -> Z)
    self_repr area xz yz h w name display m (fuel : nat) :
  shape area = [0%nat; 2%nat] ->
  In (dtype area) PixelSpec.real_types ->
  exists self,
    RegionOfInterest.init int16_overflow self_repr area xz yz h w name display m
      = Ok self /\
    RegionOfInterest.x_points self = [] /\
    RegionOfInterest.y_points self = [] /\
    RegionOfInterest.next self = Raise StopIteration /\
    RegionOfInterest.for_each (S fuel) RegionOfInterest.point self =
      Some (Ok ([], self)) /\
    RegionOfInterest.x_point self =
      Raise (IndexError "index -1 is out of bounds for axis 0 with size 0") /\
    RegionOfInterest.y_point self =
      Raise (IndexError "index -1 is out of bounds for axis 0 with size 0").
Proof.
  intros Hs Hreal.
  pose proof (to_pixels_real int16_overflow _ xz (np.column area 0) Hreal) as Hx.
  pose proof (to_pixels_real int16_overflow _ yz (np.column area 1) Hreal) as Hy.
  eexists. split; [apply (init_accepts _ _ _ _ _ _ _ _ _ _ 0 _ _ Hs Hx Hy) |].
  unfold np.column. rewrite Hs. cbn [nth seq map].
  destruct m as [m |]; cbn; repeat split; reflexivity.
Qed.

Lemma region_without_points_witness :
  exists self,
    RegionOfInterest.init Examples.overflow_to_zero "<RegionOfInterest r0>"
      Samples.no_points (Float64.of_Z 1) (Float64.of_Z 1) 10 10 "img" None None
      = Ok self /\
    RegionOfInterest.x_points self = [] /\
    RegionOfInterest.y_points self = [] /\
    RegionOfInterest.next self = Raise StopIteration /\
    RegionOfInterest.for_each 1 RegionOfInterest.point self = Some (Ok ([], self)) /\
    RegionOfInterest.x_point self =
      Raise (IndexError "index -1 is out of bounds for axis 0 with size 0") /\
    RegionOfInterest.y_point self =
      Raise (IndexError "index -1 is out of bounds for axis 0 with size 0").
Proof.
  apply (region_without_points Examples.overflow_to_zero "<RegionOfInterest r0>"
           Samples.no_points (Float64.of_Z 1) (Float64.of_Z 1) 10 10 "img" None None 0).
  - reflexivity.
  - cbn. auto 20.
Defined.

(** ** RegionOfInterest: histories *)

(** X5: no sequence of method calls changes the identifier, the image
    dimensions, the image name, the pixel coordinates or the iteration
    limit of a region. *)
Theorem calls_keep_construction_data (self : RegionOfInterest.t)
    (calls : list RegionOfInterest.method) :
  let after := History.run self calls in
  RegionOfInterest.id after = RegionOfInterest.id self /\
  RegionOfInterest.image_height after = RegionOfInterest.image_height self /\
  RegionOfInterest.image_width after = RegionOfInterest.image_width self /\
  RegionOfInterest.image_name after = RegionOfInterest.image_name self /\
  RegionOfInterest.x_points after = RegionOfInterest.x_points self /\
  RegionOfInterest.y_points after = RegionOfInterest.y_points self /\
  RegionOfInterest.iter_limit after = RegionOfInterest.iter_limit self.
Proof.
  revert self. induction calls as [| c calls IH]; intros self; [cbn; repeat split |].
  cbn [History.run fold_left].
  fold (History.run (RegionOfInterest.call self c) calls).
  destruct (IH (RegionOfInterest.call self c)) as (H1 & H2 & H3 & H4 & H5 & H6 & H7).
  cbv zeta. rewrite H1, H2, H3, H4, H5, H6, H7.
  destruct c as [| | name | [m |]]; cbn; repeat split;
    unfold RegionOfInterest.next;
    destruct (RegionOfInterest.index self >=? RegionOfInterest.iter_limit self);
    reflexivity.
Qed.

(** The geo coordinates follow the map information that last reached
    [__calculate_coords] with a value. *)
Lemma run_coords (calls : list RegionOfInterest.method) :
  forall (self : RegionOfInterest.t) (given : option MapInfo),
    RegionOfInterest.x_coords self =
      option_map (fun m => map (RegionOfInterest.geo_x m) (RegionOfInterest.x_points self))
                 given ->
    RegionOfInterest.y_coords self =
      option_map (fun m => map (RegionOfInterest.geo_y m) (RegionOfInterest.y_points self))
                 given ->
    RegionOfInterest.x_coords (History.run self calls) =
      option_map (fun m => map (RegionOfInterest.geo_x m) (RegionOfInterest.x_points self))
                 (History.last_supplied given calls) /\
    RegionOfInterest.y_coords (History.run self calls) =
      option_map (fun m => map (RegionOfInterest.geo_y m) (RegionOfInterest.y_points self))
                 (History.last_supplied given calls).
Proof.
  induction calls as [| c calls IH]; intros self given Hx Hy; [now split |].
  cbn [History.run fold_left].
  fold (History.run (RegionOfInterest.call self c) calls).
  destruct (call_keeps_pixels self c) as [Hpx Hpy].
  destruct c as [| | name | [m |]]; cbn [History.last_supplied];
    rewrite <- Hpx, <- Hpy; apply IH; rewrite ?Hpx, ?Hpy; cbn; auto;
    unfold RegionOfInterest.next;
    destruct (RegionOfInterest.index self >=? RegionOfInterest.iter_limit self);
    cbn; auto.
Qed.

(** X6: after any sequence of method calls, the geo coordinates of a
    region are those of the last map information that was supplied with a
    value, to the constructor or to set_map_info, computed from the pixel
    coordinates; they are absent only if none was ever supplied.  A
    set_map_info(None) in the sequence has no effect on them. *)
Theorem geo_coordinates_follow_last_map_info (int16_overflow : float64 -> Z)
    self_repr area xz yz h w name display given self
    (calls : list RegionOfInterest.method) :
  RegionOfInterest.init int16_overflow self_repr area xz yz h w name display given
    = Ok self ->
  RegionOfInterest.x_coords (History.run self calls) =
    option_map (fun m => map (RegionOfInterest.geo_x m) (RegionOfInterest.x_points self))
               (History.last_supplied given calls) /\
  RegionOfInterest.y_coords (History.run self calls) =
    option_map (fun m => map (RegionOfInterest.geo_y m) (RegionOfInterest.y_points self))
               (History.last_supplied given calls).
Proof.
  intros Hinit. apply run_coords.
  - destruct (init_result _ _ _ _ _ _ _ _ _ _ _ Hinit)
      as (n & xs & ys & Hs & _ & _ & Hlx & Hly & ->).
    now destruct given.
  - destruct (init_result _ _ _ _ _ _ _ _ _ _ _ Hinit)
      as (n & xs & ys & Hs & _ & _ & Hlx & Hly & ->).
    now destruct given.
Qed.

Lemma geo_coordinates_follow_last_map_info_witness :
  let calls := [RegionOfInterest.call_set_map_info (Some Samples.other_utm);
                RegionOfInterest.call_next;
                RegionOfInterest.call_set_map_info None] in
  RegionOfInterest.x_coords (History.run Examples.r3_geo calls) =
    option_map (fun m => map (RegionOfInterest.geo_x m)
                           (RegionOfInterest.x_points Examples.r3_geo))
               (History.last_supplied (Some Examples.utm) calls) /\
  RegionOfInterest.y_coords (History.run Examples.r3_geo calls) =
    option_map (fun m => map (RegionOfInterest.geo_y m)
                           (RegionOfInterest.y_points Examples.r3_geo))
               (History.last_supplied (Some Examples.utm) calls).
Proof.
  apply (geo_coordinates_follow_last_map_info Examples.overflow_to_zero
           "<RegionOfInterest r3>" Examples.three_points (Float64.of_Z 2)
           (Float64.of_Z 2) 10 10 "img" None (Some Examples.utm) Examples.r3_geo).
  exact r3_geo_constructed.
Defined.

(** The coordinates of the example after the three calls: those of the
    second map information, x = 100 + 10 px and y = 200 - 10 py. *)
Example r3_geo_after_calls :
  RegionOfInterest.x_coords
    (History.run Examples.r3_geo
       [RegionOfInterest.call_set_map_info (Some Samples.other_utm);
        RegionOfInterest.call_next;
        RegionOfInterest.call_set_map_info None]) =
  Some [Float64.of_Z 100; Float64.of_Z 120; Float64.of_Z 150].
Proof. vm_compute. reflexivity. Qed.

(** ** Region export *)

(** A loop whose body succeeds at every position after the cursor returns
    the results of the body in order. *)
Lemma loop_collects {A : Type} (body : RegionOfInterest.t -> result A)
    (result_at : nat -> A) (rest : nat) :
  forall (fuel : nat) (self : RegionOfInterest.t),
    -1 <= RegionOfInterest.index self ->
    Z.of_nat rest = RegionOfInterest.iter_limit self - RegionOfInterest.index self ->
    (rest < fuel)%nat ->
    (forall k : nat,
        RegionOfInterest.index self < Z.of_nat k <= RegionOfInterest.iter_limit self ->
        body (RegionOfInterest.with_index self (Z.of_nat k)) = Ok (result_at k)) ->
    RegionOfInterest.loop fuel body self =
      Some (Ok (map result_at (seq (Z.to_nat (RegionOfInterest.index self + 1)) rest),
                RegionOfInterest.with_index self (RegionOfInterest.iter_limit self))).
Proof.
  induction rest as [| rest IH]; intros fuel self Hidx Hrest Hfuel Hbody;
    (destruct fuel as [| fuel]; [lia |]); cbn [RegionOfInterest.loop];
    unfold RegionOfInterest.next.
  - replace (RegionOfInterest.index self >=? RegionOfInterest.iter_limit self)
      with true by (symmetry; rewrite Z.geb_leb; apply Z.leb_le; lia).
    replace (RegionOfInterest.iter_limit self) with (RegionOfInterest.index self) by lia.
    now rewrite with_index_same.
  - replace (RegionOfInterest.index self >=? RegionOfInterest.iter_limit self)
      with false by (symmetry; rewrite Z.geb_leb; apply Z.leb_gt; lia).
    set (k := Z.to_nat (RegionOfInterest.index self + 1)).
    replace (RegionOfInterest.index self + 1) with (Z.of_nat k) by lia.
    rewrite Hbody by lia.
    specialize (IH fuel (RegionOfInterest.with_index self (Z.of_nat k))).
    cbn [RegionOfInterest.with_index RegionOfInterest.index
         RegionOfInterest.iter_limit] in IH.
    rewrite IH; try lia.
    + replace (Z.to_nat (Z.of_nat k + 1)) with (S k) by lia. reflexivity.
    + intros j Hj. apply Hbody. lia.
Qed.

Lemma append_assoc_string (a b c : string) : (a ++ b) ++ c = a ++ b ++ c.
Proof. induction a as [| ch a IH]; [reflexivity |]. cbn. now rewrite IH. Qed.

Lemma map_nth_seq {A B : Type} (f : A -> B) (l : list A) (d : A) :
  map (fun k => f (nth k l d)) (seq 0 (length l)) = map f l.
Proof.
  induction l as [| a l IH]; [reflexivity |].
  cbn [length seq map nth]. f_equal.
  rewrite <- seq_shift, map_map. exact IH.
Qed.

(** The tool the constructor builds; the projection description is the
    projection name, then the zone and the area when present, then the
    datum, separated by spaces. *)
Lemma region_tools_of_map_info (region : RegionOfInterest.t) (m : MapInfo) :
  RegionOfInterest.map_info region = Some m ->
  OpenSpectraRegionTools.init region =
    Ok (OpenSpectraRegionTools.mk region (Some m)
          (let with_zone :=
             match projection_zone m with
             | Some z => projection_name m ++ " " ++ str_int z
             | None => projection_name m
             end in
           let with_area :=
             match projection_area m with
             | Some a => with_zone ++ " " ++ a
             | None => with_zone
             end in
           with_area ++ " " ++ datum m)
          "{0},{1},{2},{3}" "sample,line,x_coordinate,y_coordinate").
Proof.
  intros Hm. unfold OpenSpectraRegionTools.init. rewrite Hm.
  cbn [OpenSpectraRegionTools.getattr bind].
  destruct (projection_zone m) as [z |], (projection_area m) as [a |]; reflexivity.
Qed.

(** X7: an export tool exists exactly for the regions that hold map
    information.  Its projection description is the projection name, then
    the zone and the area when they are present, then the datum, separated
    by single spaces, and it always writes the four-column format: the
    two-column format and header of the constructor are never selected. *)
Theorem export_tool_format (region : RegionOfInterest.t) :
  succeeds (OpenSpectraRegionTools.init region) =
    match RegionOfInterest.map_info region with Some _ => true | None => false end /\
  forall tool, OpenSpectraRegionTools.init region = Ok tool ->
    OpenSpectraRegionTools.region tool = region /\
    OpenSpectraRegionTools.output_format tool = "{0},{1},{2},{3}" /\
    OpenSpectraRegionTools.data_header tool = "sample,line,x_coordinate,y_coordinate" /\
    exists m, RegionOfInterest.map_info region = Some m /\
      OpenSpectraRegionTools.projection tool =
        match projection_zone m, projection_area m with
        | Some z, Some a => projection_name m ++ " " ++ str_int z ++ " " ++ a ++ " " ++ datum m
        | Some z, None => projection_name m ++ " " ++ str_int z ++ " " ++ datum m
        | None, Some a => projection_name m ++ " " ++ a ++ " " ++ datum m
        | None, None => projection_name m ++ " " ++ datum m
        end.
Proof.
  destruct (RegionOfInterest.map_info region) as [m |] eqn:Hm.
  - rewrite (region_tools_of_map_info region m Hm). split; [reflexivity |].
    intros tool [= <-]. repeat split. exists m. split; [reflexivity |].
    cbn [OpenSpectraRegionTools.projection].
    destruct (projection_zone m) as [z |], (projection_area m) as [a |]; cbv zeta;
      rewrite ?append_assoc_string; reflexivity.
  - rewrite (region_tools_need_map_info region Hm). split; [reflexivity |].
    discriminate.
Qed.

(** [x + 1] on an int16 [x]: one more, but where NEP 50 keeps the sum an
    int16 the largest int16 is followed by the smallest. *)
Lemma plus_one_int16 (nep50 : bool) (v : Z) :
  -32768 <= v <= 32767 ->
  OpenSpectraRegionTools.plus_one nep50 v =
    if nep50 && (v =? 32767) then -32768 else v + 1.
Proof.
  intros Hv. unfold OpenSpectraRegionTools.plus_one, np.wrap_int16.
  destruct nep50; [| reflexivity]. cbn [andb].
  destruct (Z.eqb_spec v 32767) as [-> | Hne]; [reflexivity |].
  rewrite Z.mod_small by lia. lia.
Qed.

Lemma nth_in_range (l : list Z) (k : nat) (lo hi : Z) :
  Forall (fun v => lo <= v <= hi) l -> (k < length l)%nat ->
  lo <= nth k l 0 <= hi.
Proof.
  intros Hall Hk. rewrite Forall_forall in Hall. apply Hall. now apply nth_In.
Qed.

Section SaveRegion.

Variable int16_overflow : float64 -> Z.
Variable str_float : float64 -> string.

(** Whether the installed NumPy promotes as NEP 50 says (NumPy 2). *)
Variable nep50 : bool.

(** The number written for the pixel coordinate [v]. *)
Let written (v : Z) : Z :=
  if nep50 && (v =? 32767) then -32768 else v + 1.

(** The line [save_region] writes for one point. *)
Let line_of (m : MapInfo) (p : Z * Z) : string :=
  str_int (written (fst p)) ++ "," ++ str_int (written (snd p)) ++ ","
    ++ str_float (RegionOfInterest.geo_x m (fst p)) ++ ","
    ++ str_float (RegionOfInterest.geo_y m (snd p)) ++ newline.

(** X8: for a reachable region that holds map information and whose
    pixel coordinates are int16 values, the export tool is constructed,
    and save_region (with fuel above the number of points) writes the six
    header lines, the four-column header, and one line per point, in
    order: the pixel coordinates plus one and the geo coordinates of the
    point.  Where NumPy promotes as NEP 50 says (NumPy 2) the sum is an
    int16, so that the coordinate 32767 is written as -32768; before, it
    is written as 32768.  The text depends neither on the position of the
    region's cursor before the call nor on include_bands. *)
Theorem save_region_writes (region : RegionOfInterest.t) (m : MapInfo)
    (fuel : nat) (include_bands : bool) :
  RegionOfInterest.reachable int16_overflow region ->
  RegionOfInterest.map_info region = Some m ->
  Forall (fun v => -32768 <= v <= 32767) (RegionOfInterest.x_points region) ->
  Forall (fun v => -32768 <= v <= 32767) (RegionOfInterest.y_points region) ->
  (length (RegionOfInterest.x_points region) < fuel)%nat ->
  exists tool,
    OpenSpectraRegionTools.init region = Ok tool /\
    OpenSpectraRegionTools.save_region str_float nep50 fuel tool include_bands =
      Some (Ok ((("name:" ++ str_opt (RegionOfInterest.display_name region) ++ newline)
                 ++ ("description:" ++ RegionOfInterest.image_name region ++ newline)
                 ++ ("image width:" ++ str_int (RegionOfInterest.image_width region)
                       ++ newline)
                 ++ ("image height:" ++ str_int (RegionOfInterest.image_height region)
                       ++ newline)
                 ++ ("projection:" ++ OpenSpectraRegionTools.projection tool ++ newline)
                 ++ "data:" ++ newline
                 ++ "sample,line,x_coordinate,y_coordinate" ++ newline)
                ++ String.concat ""
                     (map (line_of m)
                        (combine (RegionOfInterest.x_points region)
                                 (RegionOfInterest.y_points region))))).
Proof.
  intros Hreach Hm Hxs Hys Hfuel.
  destruct (reachable_consistent _ _ Hreach) as [Hlen Hlim _ Hgeo].
  destruct (Hgeo m Hm) as [Hxc Hyc].
  eexists. split; [apply (region_tools_of_map_info region m Hm) |].
  unfold OpenSpectraRegionTools.save_region.
  cbn [OpenSpectraRegionTools.region OpenSpectraRegionTools.projection
       OpenSpectraRegionTools.get_data_header OpenSpectraRegionTools.get_output_format
       OpenSpectraRegionTools.data_header OpenSpectraRegionTools.output_format].
  unfold RegionOfInterest.for_each, RegionOfInterest.iter.
  rewrite (loop_collects _
             (fun k => line_of m (nth k (combine (RegionOfInterest.x_points region)
                                                (RegionOfInterest.y_points region))
                                      (0, 0)))
             (length (RegionOfInterest.x_points region)));
    cbn [RegionOfInterest.with_index RegionOfInterest.index RegionOfInterest.iter_limit];
    try lia.
  - change (Z.to_nat (-1 + 1)) with 0%nat.
    replace (length (RegionOfInterest.x_points region))
      with (length (combine (RegionOfInterest.x_points region)
                            (RegionOfInterest.y_points region)))
      by (rewrite length_combine; lia).
    rewrite (map_nth_seq (line_of m)). reflexivity.
  - intros k Hk.
    unfold OpenSpectraRegionTools.data_line, RegionOfInterest.x_point,
      RegionOfInterest.y_point, RegionOfInterest.x_coordinate,
      RegionOfInterest.y_coordinate.
    cbn [RegionOfInterest.with_index RegionOfInterest.index RegionOfInterest.x_points
         RegionOfInterest.y_points RegionOfInterest.x_coords RegionOfInterest.y_coords].
    rewrite Hxc, Hyc.
    rewrite (getitem_nonneg (RegionOfInterest.x_points region) _ 0) by lia.
    rewrite (getitem_nonneg (RegionOfInterest.y_points region) _ 0) by lia.
    rewrite (getitem_nonneg (map _ (RegionOfInterest.x_points region)) _ Float64.nan)
      by (rewrite length_map; lia).
    rewrite (getitem_nonneg (map _ (RegionOfInterest.y_points region)) _ Float64.nan)
      by (rewrite length_map; lia).
    rewrite Nat2Z.id.
    rewrite (nth_map_in_range _ _ _ _ 0) by lia.
    rewrite (nth_map_in_range _ _ _ _ 0) by lia.
    rewrite combine_nth by exact Hlen.
    cbn [bind].
    rewrite (plus_one_int16 nep50 (nth k (RegionOfInterest.x_points region) 0))
      by (apply nth_in_range; [exact Hxs | lia]).
    rewrite (plus_one_int16 nep50 (nth k (RegionOfInterest.y_points region) 0))
      by (apply nth_in_range; [exact Hys | lia]).
    reflexivity.
Qed.

End SaveRegion.

Lemma save_region_writes_witness :
  exists tool,
    OpenSpectraRegionTools.init Samples.edge_region = Ok tool /\
    OpenSpectraRegionTools.save_region Examples.str_whole true 2 tool true =
      Some (Ok ((("name:" ++ str_opt (RegionOfInterest.display_name Samples.edge_region)
                    ++ newline)
                 ++ ("description:" ++ RegionOfInterest.image_name Samples.edge_region
                       ++ newline)
                 ++ ("image width:"
                       ++ str_int (RegionOfInterest.image_width Samples.edge_region)
                       ++ newline)
                 ++ ("image height:"
                       ++ str_int (RegionOfInterest.image_height Samples.edge_region)
                       ++ newline)
                 ++ ("projection:" ++ OpenSpectraRegionTools.projection tool ++ newline)
                 ++ "data:" ++ newline
                 ++ "sample,line,x_coordinate,y_coordinate" ++ newline)
                ++ String.concat ""
                     (map (fun p : Z * Z =>
                             str_int (if true && (fst p =? 32767) then -32768
                                      else fst p + 1) ++ ","
                               ++ str_int (if true && (snd p =? 32767) then -32768
                                           else snd p + 1) ++ ","
                               ++ Examples.str_whole
                                    (RegionOfInterest.geo_x Examples.utm (fst p)) ++ ","
                               ++ Examples.str_whole
                                    (RegionOfInterest.geo_y Examples.utm (snd p))
                               ++ newline)
                        (combine (RegionOfInterest.x_points Samples.edge_region)
                                 (RegionOfInterest.y_points Samples.edge_region))))).
Proof.
  apply (save_region_writes Examples.overflow_to_zero Examples.str_whole true
           Samples.edge_region Examples.utm 2 true edge_region_reachable).
  - reflexivity.
  - repeat constructor; vm_compute; discriminate.
  - repeat constructor; vm_compute; discriminate.
  - simpl. lia.
Defined.

(** The file of the three-point example, under either promotion. *)
Example r3_geo_export (nep50 : bool) :
  (tool <- OpenSpectraRegionTools.init Examples.r3_geo ;;
   match OpenSpectraRegionTools.save_region Examples.str_whole nep50 4 tool false with
   | Some written => written
   | None => Raise StopIteration
   end) =
  Ok ("name:None" ++ newline ++
      "description:img" ++ newline ++
      "image width:10" ++ newline ++
      "image height:10" ++ newline ++
      "projection:UTM 13 WGS-84" ++ newline ++
      "data:" ++ newline ++
      "sample,line,x_coordinate,y_coordinate" ++ newline ++
      "1,1,500000.0,4000000.0" ++ newline ++
      "3,4,500060.0,3999910.0" ++ newline ++
      "6,2,500150.0,3999970.0" ++ newline).
Proof. destruct nep50; vm_compute; reflexivity. Qed.

(** The line of the point (32767, 1): where the sum is an int16 the
    sample is written as -32768, before as 32768. *)
Example edge_region_export :
  (tool <- OpenSpectraRegionTools.init Samples.edge_region ;;
   OpenSpectraRegionTools.data_line Examples.str_whole true
     (OpenSpectraRegionTools.get_output_format tool false)
     (RegionOfInterest.with_index Samples.edge_region 0))
    = Ok ("-32768,2,1483010.0,3999970.0" ++ newline) /\
  (tool <- OpenSpectraRegionTools.init Samples.edge_region ;;
   OpenSpectraRegionTools.data_line Examples.str_whole false
     (OpenSpectraRegionTools.get_output_format tool false)
     (RegionOfInterest.with_index Samples.edge_region 0))
    = Ok ("32768,2,1483010.0,3999970.0" ++ newline).
Proof. split; vm_compute; reflexivity. Qed.

(** ** Noise cleanup on every plain floating-point array *)

Lemma nan_or_none (values : list float64) :
  In Float64.nan values \/ Forall (fun x => Float64.isnan x = false) values.
Proof.
  induction values as [| x l [IH | IH]]; [right; constructor | left; now right |].
  destruct x; try (right; constructor; [reflexivity | exact IH]).
  left. now left.
Qed.

(** One element through [masked_invalid] and then [masked_outside]: it
    ends masked exactly when it lies outside [[0, 1]]. *)
Lemma invalid_then_outside_element (x : float64) :
  Float64.isnan x = false ->
  (let e := if negb (Float64.isfinite x) then ma.default_fill_value else x in
   Float64.ltb e (Float64.of_Z 0) || Float64.gtb e (Float64.of_Z 1))
  || negb (Float64.isfinite x)
  = Float64.ltb x (Float64.of_Z 0) || Float64.gtb x (Float64.of_Z 1).
Proof.
  intros Hx. destruct x as [s | s | | s m e]; try discriminate.
  - apply orb_false_r.
  - destruct s; vm_compute; reflexivity.
  - apply orb_false_r.
Qed.

Lemma invalid_then_outside (values : list float64) :
  Forall (fun x => Float64.isnan x = false) values ->
  map (fun p : bool * bool => fst p || snd p)
    (combine
       (map (fun e => Float64.ltb e (Float64.of_Z 0) || Float64.gtb e (Float64.of_Z 1))
          (map (fun p : scalar * bool =>
                  if snd p then ma.default_fill_value else to_float (fst p))
             (combine (map SFloat values)
                (map (fun s => negb (Float64.isfinite (to_float s)))
                   (map SFloat values)))))
       (map (fun s => negb (Float64.isfinite (to_float s))) (map SFloat values)))
  = map (fun x => Float64.ltb x (Float64.of_Z 0) || Float64.gtb x (Float64.of_Z 1))
      values.
Proof.
  induction 1 as [| x l Hx _ IH]; [reflexivity |].
  cbn [map combine fst snd to_float]. rewrite IH. f_equal.
  exact (invalid_then_outside_element x Hx).
Qed.

Lemma masked_invalid_plain (a : ndarray) :
  mask a = None ->
  ma.masked_invalid a =
    mk_ndarray (dtype a) (shape a) (data a)
      (Some (map (fun s => negb (Float64.isfinite (to_float s))) (data a))).
Proof.
  intros Hplain. unfold ma.masked_invalid, ma.masked_where, ma.getmaskarray.
  rewrite Hplain. now rewrite or_no_mask by now rewrite length_map.
Qed.

(** What the cleanup runs on a floating-point array that has elements. *)
Lemma noise_cleanup_steps (Floats : list np_dtype) (bands : ndarray)
    (s : scalar) (l : list scalar) :
  dtype_in (dtype bands) Floats = true ->
  data bands = s :: l ->
  let lo := fold_left np.minimum l s in
  let hi := fold_left np.maximum l s in
  let invalid := np.eq_float lo Float64.nan || np.eq_float hi Float64.nan
                 || np.eq_float lo Float64.inf || np.eq_float hi Float64.inf in
  OpenSpectraBandTools.bogus_noise_cleanup Floats bands =
    Ok (ma.masked_outside (if invalid then ma.masked_invalid bands else bands)
          (Float64.of_Z 0) (Float64.of_Z 1)).
Proof.
  intros Hfloat Hdata. unfold OpenSpectraBandTools.bogus_noise_cleanup.
  rewrite Hfloat. unfold np.min, np.max. rewrite Hdata.
  cbn [bind OpenSpectraBandTools.py_or].
  destruct (np.eq_float (fold_left np.minimum l s) Float64.nan);
    destruct (np.eq_float (fold_left np.maximum l s) Float64.nan);
    destruct (np.eq_float (fold_left np.minimum l s) Float64.inf);
    destruct (np.eq_float (fold_left np.maximum l s) Float64.inf); reflexivity.
Qed.

Section NoiseCleanupGeneral.

Variable Floats : list np_dtype.

(** The cleanup of a plain floating-point array that has elements. *)
Lemma cleanup_of_plain_floats (bands : ndarray) (values : list float64) :
  dtype_in (dtype bands) Floats = true ->
  mask bands = None ->
  data bands = map SFloat values ->
  values <> [] ->
  OpenSpectraBandTools.bogus_noise_cleanup Floats bands =
    Ok (mk_ndarray (dtype bands) (shape bands) (data bands)
          (Some (map (fun x => Float64.ltb x (Float64.of_Z 0)
                               || Float64.gtb x (Float64.of_Z 1)) values))).
Proof.
  intros Hfloat Hplain Hdata Hne.
  destruct values as [| x l]; [congruence |]. cbn [map] in Hdata.
  rewrite (noise_cleanup_steps Floats bands _ _ Hfloat Hdata). cbv zeta.
  unfold np.eq_float at 1 2. rewrite !eqb_nan_r. cbn [orb].
  assert (Hout : ma.masked_outside bands (Float64.of_Z 0) (Float64.of_Z 1) =
                 mk_ndarray (dtype bands) (shape bands) (data bands)
                   (Some (map (fun x => Float64.ltb x (Float64.of_Z 0)
                                        || Float64.gtb x (Float64.of_Z 1)) (x :: l)))).
  { rewrite masked_outside_plain by (auto; reflexivity).
    rewrite Hdata. change (SFloat x :: map SFloat l) with (map SFloat (x :: l)).
    now rewrite map_map. }
  destruct (nan_or_none (x :: l)) as [Hnan | Hclean].
  - rewrite (fold_minimum_nan l x Hnan), (fold_maximum_nan l x Hnan). exact (f_equal Ok Hout).
  - destruct (np.eq_float (fold_left np.minimum (map SFloat l) (SFloat x)) Float64.inf
              || np.eq_float (fold_left np.maximum (map SFloat l) (SFloat x)) Float64.inf);
      [| exact (f_equal Ok Hout)].
    rewrite (masked_invalid_plain bands Hplain).
    unfold ma.masked_outside, ma.masked_where, ma.filled, ma.getmaskarray.
    cbn [mask data dtype shape]. rewrite Hdata.
    change (SFloat x :: map SFloat l) with (map SFloat (x :: l)).
    replace (Float64.ltb (Float64.of_Z 1) (Float64.of_Z 0)) with false by reflexivity.
    now rewrite (invalid_then_outside (x :: l) Hclean).
Qed.

(** X9: on every plain floating-point array that has elements the
    cleanup succeeds, leaves the values as they are, and masks exactly the
    elements that compare below 0.0 or above 1.0: both infinities are
    masked, every value in [0, 1] is kept, and NaN, which compares neither
    below nor above, is never masked. *)
Theorem noise_cleanup_mask (bands : ndarray) (values : list float64) :
  dtype_in (dtype bands) Floats = true ->
  mask bands = None ->
  data bands = map SFloat values ->
  values <> [] ->
  exists cleaned,
    OpenSpectraBandTools.bogus_noise_cleanup Floats bands = Ok cleaned /\
    dtype cleaned = dtype bands /\ shape cleaned = shape bands /\
    data cleaned = data bands /\
    ma.getmaskarray cleaned =
      map (fun x => Float64.ltb x (Float64.of_Z 0) || Float64.gtb x (Float64.of_Z 1))
          values /\
    forall i x, nth_error values i = Some x ->
      nth i (ma.getmaskarray cleaned) false =
        match x with
        | S754_nan => false
        | S754_infinity _ => true
        | _ => Float64.ltb x (Float64.of_Z 0) || Float64.gtb x (Float64.of_Z 1)
        end.
Proof.
  intros Hfloat Hplain Hdata Hne.
  rewrite (cleanup_of_plain_floats bands values Hfloat Hplain Hdata Hne).
  eexists. split; [reflexivity |]. cbn [dtype shape data]. repeat split.
  intros i x Hi. unfold ma.getmaskarray. cbn [mask].
  assert (Hlt : (i < length values)%nat)
    by (apply nth_error_Some; congruence).
  rewrite (nth_map_in_range _ _ _ _ x) by exact Hlt.
  rewrite (nth_error_nth _ _ x Hi).
  destruct x as [s | s | | s m e]; try reflexivity. destruct s; reflexivity.
Qed.

End NoiseCleanupGeneral.

Lemma noise_cleanup_mask_witness :
  exists cleaned,
    OpenSpectraBandTools.bogus_noise_cleanup Examples.Floats Samples.mixed_band
      = Ok cleaned /\
    dtype cleaned = dtype Samples.mixed_band /\
    shape cleaned = shape Samples.mixed_band /\
    data cleaned = data Samples.mixed_band /\
    ma.getmaskarray cleaned =
      map (fun x => Float64.ltb x (Float64.of_Z 0) || Float64.gtb x (Float64.of_Z 1))
          Samples.mixed_values /\
    forall i x, nth_error Samples.mixed_values i = Some x ->
      nth i (ma.getmaskarray cleaned) false =
        match x with
        | S754_nan => false
        | S754_infinity _ => true
        | _ => Float64.ltb x (Float64.of_Z 0) || Float64.gtb x (Float64.of_Z 1)
        end.
Proof.
  apply (noise_cleanup_mask Examples.Floats Samples.mixed_band Samples.mixed_values).
  - reflexivity.
  - reflexivity.
  - reflexivity.
  - unfold Samples.mixed_values. discriminate.
Defined.

(** The mask of the example: -0.5, 2.0 and both infinities are masked. *)
Example mixed_band_mask :
  OpenSpectraBandTools.bogus_noise_cleanup Examples.Floats Samples.mixed_band =
    Ok (mk_ndarray np_float64 [5%nat; 1%nat] (data Samples.mixed_band)
          (Some [true; false; true; true; true])).
Proof. vm_compute. reflexivity. Qed.

(** ** Noise cleanup and the band requests: errors *)

Lemma append_empty_r (a : string) : a ++ "" = a.
Proof. induction a as [| ch a IH]; [reflexivity |]. cbn. now rewrite IH. Qed.

Lemma spectra_title (a b : string) :
  format "Spectra S-{0}, L-{1}" [a; b] = Ok ("Spectra S-" ++ a ++ ", L-" ++ b).
Proof.
  transitivity (Ok ("Spectra S-" ++ a ++ ", L-" ++ b ++ "")).
  - vm_compute. reflexivity.
  - now rewrite (append_empty_r b).
Qed.

Section BandRequests.

Variable Floats : list np_dtype.
Variables np_mean np_min np_max np_std : ndarray -> Z -> result (list float64).

(** When the cleanup raises and what it returns. *)
Lemma cleanup_cases (bands : ndarray) :
  succeeds (OpenSpectraBandTools.bogus_noise_cleanup Floats bands) =
    negb (dtype_in (dtype bands) Floats && is_nil (data bands)) /\
  (forall e, OpenSpectraBandTools.bogus_noise_cleanup Floats bands = Raise e ->
     e = ValueError "zero-size array to reduction operation minimum which has no identity") /\
  (forall cleaned, OpenSpectraBandTools.bogus_noise_cleanup Floats bands = Ok cleaned ->
     dtype cleaned = dtype bands /\ shape cleaned = shape bands /\
     data cleaned = data bands /\
     (dtype_in (dtype bands) Floats = false -> cleaned = bands)).
Proof.
  destruct (dtype_in (dtype bands) Floats) eqn:Hfloat.
  - destruct (data bands) as [| s l] eqn:Hdata.
    + unfold OpenSpectraBandTools.bogus_noise_cleanup, np.min.
      rewrite Hfloat, Hdata. cbn. repeat split; try discriminate.
      now intros e [= <-].
    + rewrite (noise_cleanup_steps Floats bands s l Hfloat Hdata). cbv zeta.
      repeat split; try discriminate;
        injection H as <-;
        destruct (np.eq_float _ _ || np.eq_float _ _ || np.eq_float _ _
                  || np.eq_float _ _); try reflexivity; try exact Hdata;
        discriminate.
  - rewrite (noise_cleanup_skips_other_types Floats bands Hfloat). cbn.
    repeat split; try discriminate; now injection H as <-.
Qed.

(** X10: the cleanup raises only for a floating-point array without
    elements, with the ValueError of the reduction; whenever it returns,
    the array it returns has the type, the shape and the values of its
    argument (only the mask can differ), and an array of another type is
    returned as it is. *)
Theorem noise_cleanup_outcome (bands : ndarray) :
  succeeds (OpenSpectraBandTools.bogus_noise_cleanup Floats bands) =
    negb (dtype_in (dtype bands) Floats && is_nil (data bands)) /\
  (forall e, OpenSpectraBandTools.bogus_noise_cleanup Floats bands = Raise e ->
     e = ValueError "zero-size array to reduction operation minimum which has no identity") /\
  (forall cleaned, OpenSpectraBandTools.bogus_noise_cleanup Floats bands = Ok cleaned ->
     dtype cleaned = dtype bands /\ shape cleaned = shape bands /\
     data cleaned = data bands /\
     (dtype_in (dtype bands) Floats = false -> cleaned = bands)).
Proof. exact (cleanup_cases bands). Qed.

(** X11: no band request returns.  bands raises the TypeError of the
    Bands constructor, which it calls without labels; band_statistics and
    statistics_plot raise the ValueError of the cleanup for a
    floating-point array without elements and the same TypeError for every
    other array. *)
Theorem band_requests_raise (file_bands wavelengths : ndarray) (title : option string) :
  let missing_labels :=
    TypeError "__init__() missing 1 required positional argument: 'labels'" in
  let error :=
    if dtype_in (dtype file_bands) Floats && is_nil (data file_bands)
    then ValueError "zero-size array to reduction operation minimum which has no identity"
    else missing_labels in
  OpenSpectraBandTools.bands file_bands = Raise missing_labels /\
  OpenSpectraBandTools.band_statistics Floats np_mean np_min np_max np_std file_bands
    = Raise error /\
  BandPlots.statistics_plot Floats np_mean np_min np_max np_std file_bands wavelengths
    title = Raise error.
Proof.
  cbv zeta. split; [reflexivity |].
  unfold BandPlots.statistics_plot, OpenSpectraBandTools.band_statistics.
  destruct (cleanup_cases file_bands) as (Hok & Herr & _).
  destruct (OpenSpectraBandTools.bogus_noise_cleanup Floats file_bands) as [c | e].
  - cbn in Hok. symmetry in Hok. apply negb_true_iff in Hok. rewrite Hok.
    split; reflexivity.
  - cbn in Hok. symmetry in Hok. apply negb_false_iff in Hok. rewrite Hok.
    rewrite (Herr e eq_refl). split; reflexivity.
Qed.

(** X12: for a plain floating-point spectrum that has elements,
    spectral_plot returns a line plot of the wavelengths against the
    values of the spectrum, unchanged, with the values outside [0, 1]
    masked; the title names the sample and then the line, both 1-based,
    and the colour and line style are the defaults. *)
Theorem spectral_plot_result (file_bands wavelengths : ndarray)
    (values : list float64) (line sample : Z) :
  dtype_in (dtype file_bands) Floats = true ->
  mask file_bands = None ->
  data file_bands = map SFloat values ->
  values <> [] ->
  BandPlots.spectral_plot Floats file_bands wavelengths line sample =
    Ok (LinePlotData.mk wavelengths
          (mk_ndarray (dtype file_bands) (shape file_bands) (data file_bands)
             (Some (map (fun x => Float64.ltb x (Float64.of_Z 0)
                                  || Float64.gtb x (Float64.of_Z 1)) values)))
          (Some "Wavelength") (Some "Brightness")
          (Some ("Spectra S-" ++ str_int (sample + 1) ++ ", L-" ++ str_int (line + 1)))
          "b" "-" None).
Proof.
  intros Hfloat Hplain Hdata Hne. unfold BandPlots.spectral_plot.
  rewrite (cleanup_of_plain_floats Floats file_bands values Hfloat Hplain Hdata Hne).
  cbn [bind]. rewrite spectra_title. reflexivity.
Qed.

End BandRequests.

Lemma spectral_plot_result_witness :
  BandPlots.spectral_plot Examples.Floats Samples.mixed_band Samples.wavelengths 0 4 =
    Ok (LinePlotData.mk Samples.wavelengths
          (mk_ndarray (dtype Samples.mixed_band) (shape Samples.mixed_band)
             (data Samples.mixed_band)
             (Some (map (fun x => Float64.ltb x (Float64.of_Z 0)
                                  || Float64.gtb x (Float64.of_Z 1))
                        Samples.mixed_values)))
          (Some "Wavelength") (Some "Brightness")
          (Some ("Spectra S-" ++ str_int (4 + 1) ++ ", L-" ++ str_int (0 + 1)))
          "b" "-" None).
Proof.
  apply (spectral_plot_result Examples.Floats Samples.mixed_band Samples.wavelengths
           Samples.mixed_values 0 4).
  - reflexivity.
  - reflexivity.
  - reflexivity.
  - unfold Samples.mixed_values. discriminate.
Defined.

(** The title for line 0, sample 4, and the error for a spectrum without
    elements. *)
Example spectral_plot_title :
  (plot <- BandPlots.spectral_plot Examples.Floats Samples.mixed_band
             Samples.wavelengths 0 4 ;;
   Ok (LinePlotData.title plot)) = Ok (Some "Spectra S-5, L-1") /\
  BandPlots.spectral_plot Examples.Floats Samples.empty_band Samples.wavelengths 0 4 =
    Raise (ValueError "zero-size array to reduction operation minimum which has no identity").
Proof. split; vm_compute; reflexivity. Qed.

(** ** Histogram bins: when the count is exact, and the errors *)

Lemma fold_min_le_max (l : list Z) :
  forall a b, a <= b -> fold_left Z.min l a <= fold_left Z.max l b.
Proof.
  induction l as [| y l IH]; intros a b Hab; [exact Hab |].
  cbn [fold_left]. apply IH. lia.
Qed.

Lemma fold_min_lower (l : list Z) (lo : Z) :
  forall a, lo <= a -> Forall (fun v => lo <= v) l -> lo <= fold_left Z.min l a.
Proof.
  induction l as [| y l IH]; intros a Ha Hall; [exact Ha |].
  inversion Hall; subst. cbn [fold_left]. apply IH; auto. lia.
Qed.

Lemma fold_max_upper (l : list Z) (hi : Z) :
  forall a, a < hi -> Forall (fun v => v < hi) l -> fold_left Z.max l a < hi.
Proof.
  induction l as [| y l IH]; intros a Ha Hall; [exact Ha |].
  inversion Hall; subst. cbn [fold_left]. apply IH; auto. lia.
Qed.

Section HistogramBins.

Variables Ints Floats : list np_dtype.
Variable FloatBins : Z.

(** X13: for integer data whose max - min is below 2^(w-1) for a signed
    type of w bits, or below 2^w for an unsigned one, the histogram has
    the data range (min, max), the bin count max - min and the flattened
    data. *)
Theorem hist_bins_when_range_fits (data_array : ndarray) (z : Z) (l : list Z)
    (signed : bool) (w : Z) :
  dtype_in (dtype data_array) Ints = true ->
  data data_array = map SInt (z :: l) ->
  OpenSpectraHistogramTools.int_type (dtype data_array) = Some (signed, w) ->
  fold_left Z.max l z - fold_left Z.min l z < 2 ^ (if signed then w - 1 else w) ->
  exists plot,
    OpenSpectraHistogramTools.get_hist_data Ints Floats FloatBins data_array = Ok plot /\
    x_data plot = (SInt (fold_left Z.min l z), SInt (fold_left Z.max l z)) /\
    bins plot = SInt (fold_left Z.max l z - fold_left Z.min l z) /\
    y_data plot = data data_array.
Proof.
  intros Hint Hdata Htype Hfits.
  pose proof (fold_min_le_max l z z (Z.le_refl z)) as Hle.
  destruct (hist_integer_bins_exact Ints Floats FloatBins data_array z l signed w
              Hint Hdata Htype Hfits) as (plot & Hplot & Hbins & Hrange); [lia |].
  exists plot. repeat split; auto.
  rewrite (hist_integer_data Ints Floats FloatBins data_array z l Hint Hdata) in Hplot.
  now injection Hplot as <-.
Qed.

(** X14: for data of an unsigned integer type whose elements are values
    of that type, the bin count is always max - min: the subtraction
    cannot wrap around. *)
Theorem hist_bins_unsigned (data_array : ndarray) (z : Z) (l : list Z) (w : Z) :
  dtype_in (dtype data_array) Ints = true ->
  data data_array = map SInt (z :: l) ->
  OpenSpectraHistogramTools.int_type (dtype data_array) = Some (false, w) ->
  Forall (fun v => 0 <= v < 2 ^ w) (z :: l) ->
  exists plot,
    OpenSpectraHistogramTools.get_hist_data Ints Floats FloatBins data_array = Ok plot /\
    bins plot = SInt (fold_left Z.max l z - fold_left Z.min l z).
Proof.
  intros Hint Hdata Htype Hvalues. inversion Hvalues as [| ? ? Hz Hl]; subst.
  assert (Hlo : 0 <= fold_left Z.min l z).
  { apply fold_min_lower; [lia |]. eapply Forall_impl; [| exact Hl]. cbv beta. lia. }
  assert (Hhi : fold_left Z.max l z < 2 ^ w).
  { apply fold_max_upper; [lia |]. eapply Forall_impl; [| exact Hl]. cbv beta. lia. }
  pose proof (fold_min_le_max l z z (Z.le_refl z)) as Hle.
  destruct (hist_integer_bins_exact Ints Floats FloatBins data_array z l false w
              Hint Hdata Htype) as (plot & Hplot & Hbins & _); [lia | lia |].
  exists plot. auto.
Qed.

(** X15: floating-point data that has elements gets the configured bin
    count whatever its values; when one of the values is NaN, both ends of
    the data range are NaN. *)
Theorem hist_float_bins_and_range (data_array : ndarray) (values : list float64) :
  dtype_in (dtype data_array) Ints = false ->
  dtype_in (dtype data_array) Floats = true ->
  data data_array = map SFloat values ->
  values <> [] ->
  exists plot,
    OpenSpectraHistogramTools.get_hist_data Ints Floats FloatBins data_array = Ok plot /\
    bins plot = SInt FloatBins /\
    y_data plot = data data_array /\
    (In Float64.nan values ->
     x_data plot = (SFloat Float64.nan, SFloat Float64.nan)).
Proof.
  intros Hint Hfloat Hdata Hne. destruct values as [| x l]; [congruence |].
  cbn [map] in Hdata.
  rewrite (hist_float_data Ints Floats FloatBins data_array _ _ Hint Hfloat Hdata).
  eexists. split; [reflexivity |]. cbn [bins y_data x_data]. repeat split.
  intros Hnan. now rewrite (fold_minimum_nan l x Hnan), (fold_maximum_nan l x Hnan).
Qed.

(** X16: a histogram is returned exactly for data of an integer or
    floating-point type that has elements.  Data of a supported type
    without elements raises the ValueError of the reduction, and data of
    any other type raises TypeError, with or without elements. *)
Theorem hist_outcome (data_array : ndarray) :
  let supported :=
    dtype_in (dtype data_array) Ints || dtype_in (dtype data_array) Floats in
  succeeds (OpenSpectraHistogramTools.get_hist_data Ints Floats FloatBins data_array) =
    supported && negb (is_nil (data data_array)) /\
  forall e,
    OpenSpectraHistogramTools.get_hist_data Ints Floats FloatBins data_array = Raise e ->
    e = if supported
        then ValueError "zero-size array to reduction operation minimum which has no identity"
        else TypeError ("Data with type " ++ dtype_name (dtype data_array)
                          ++ " is not supported").
Proof.
  cbv zeta. unfold OpenSpectraHistogramTools.get_hist_data, np.min, np.max.
  destruct (dtype_in (dtype data_array) Ints);
    [| destruct (dtype_in (dtype data_array) Floats)];
    destruct (data data_array) as [| s l]; cbn; split; try reflexivity;
    intros e He; try discriminate; now injection He as <-.
Qed.

End HistogramBins.

Lemma hist_bins_when_range_fits_witness :
  exists plot,
    OpenSpectraHistogramTools.get_hist_data Examples.Ints Examples.Floats 256
      Examples.digits_int16 = Ok plot /\
    x_data plot = (SInt (fold_left Z.min [0; 5] 9), SInt (fold_left Z.max [0; 5] 9)) /\
    bins plot = SInt (fold_left Z.max [0; 5] 9 - fold_left Z.min [0; 5] 9) /\
    y_data plot = data Examples.digits_int16.
Proof.
  apply (hist_bins_when_range_fits Examples.Ints Examples.Floats 256
           Examples.digits_int16 9 [0; 5] true 16).
  - reflexivity.
  - reflexivity.
  - reflexivity.
  - vm_compute. reflexivity.
Defined.

Lemma hist_bins_unsigned_witness :
  exists plot,
    OpenSpectraHistogramTools.get_hist_data Examples.Ints Examples.Floats 256
      Samples.bytes = Ok plot /\
    bins plot = SInt (fold_left Z.max [3; 17] 250 - fold_left Z.min [3; 17] 250).
Proof.
  apply (hist_bins_unsigned Examples.Ints Examples.Floats 256 Samples.bytes
           250 [3; 17] 8).
  - reflexivity.
  - reflexivity.
  - reflexivity.
  - repeat constructor; simpl; lia.
Defined.

Lemma hist_float_bins_and_range_witness :
  exists plot,
    OpenSpectraHistogramTools.get_hist_data Examples.Ints Examples.Floats 256
      Examples.noisy_band = Ok plot /\
    bins plot = SInt 256 /\
    y_data plot = data Examples.noisy_band /\
    (In Float64.nan [Float64.ldexp 1 (-1); Float64.of_Z 2; Float64.nan] ->
     x_data plot = (SFloat Float64.nan, SFloat Float64.nan)).
Proof.
  apply (hist_float_bins_and_range Examples.Ints Examples.Floats 256
           Examples.noisy_band [Float64.ldexp 1 (-1); Float64.of_Z 2; Float64.nan]).
  - reflexivity.
  - reflexivity.
  - reflexivity.
  - discriminate.
Defined.

(** The counts of the examples: 247 bins for the uint8 pixels. *)
Example hist_bytes :
  (plot <- OpenSpectraHistogramTools.get_hist_data Examples.Ints Examples.Floats 256
             Samples.bytes ;;
   Ok (x_data plot, bins plot)) = Ok ((SInt 3, SInt 250), SInt 247).
Proof. reflexivity. Qed.

(** ** Histogram requests *)

Section HistogramRequestFacts.

Variable Image : Type.
Variable Band : Type.
Variables is_GreyscaleImage is_RGBImage : Image -> bool.
Variables raw_data image_data : Image -> option Band -> result ndarray.
Variable label : Image -> option Band -> result string.
Variables low_cutoff high_cutoff : Image -> option Band -> result scalar.
Variables Ints Floats : list np_dtype.
Variable FloatBins : Z.

Let tools_init := HistogramRequests.init Image is_GreyscaleImage is_RGBImage.
Let raw_histogram :=
  HistogramRequests.raw_histogram Image Band raw_data label low_cutoff high_cutoff
    Ints Floats FloatBins.
Let adjusted_histogram :=
  HistogramRequests.adjusted_histogram Image Band image_data label Ints Floats FloatBins.

(** What [__get_hist_data] returns carries no clip limits. *)
Lemma hist_data_has_no_limits (data_array : ndarray) (plot : HistogramPlotData) :
  OpenSpectraHistogramTools.get_hist_data Ints Floats FloatBins data_array = Ok plot ->
  lower_limit plot = None /\ upper_limit plot = None.
Proof.
  unfold OpenSpectraHistogramTools.get_hist_data, np.min, np.max.
  destruct (dtype_in (dtype data_array) Ints);
    [| destruct (dtype_in (dtype data_array) Floats)];
    destruct (data data_array); cbn; intros H; try discriminate;
    injection H as <-; split; reflexivity.
Qed.

(** X17: the tools are constructed for a greyscale or an RGB image and
    for no other object; for an image that is RGB and not greyscale, both
    histogram requests without a band raise the ValueError that asks for
    the band, before the image is read. *)
Theorem histogram_tools_band_required (image : Image) :
  succeeds (tools_init image) = is_GreyscaleImage image || is_RGBImage image /\
  forall self, tools_init image = Ok self ->
    is_GreyscaleImage image = false ->
    raw_histogram self None =
      Raise (ValueError "band argument is required when image is RGB") /\
    adjusted_histogram self None =
      Raise (ValueError "band argument is required when image is RGB").
Proof.
  unfold tools_init, raw_histogram, adjusted_histogram, HistogramRequests.init,
    HistogramRequests.raw_histogram, HistogramRequests.adjusted_histogram.
  destruct (is_GreyscaleImage image), (is_RGBImage image); cbn; split;
    try reflexivity; intros self Hself Hgrey; try discriminate.
  injection Hself as <-. split; reflexivity.
Qed.

(** X18: a raw histogram that is returned has the data range, the bin
    count and the flattened data that the binning of the image's raw data
    gives; its colour is "r", its title is "Raw " followed by the label,
    and its clip limits are the image's two cutoffs. *)
Theorem raw_histogram_result (self : HistogramRequests.t Image) (band : option Band)
    (plot : HistogramPlotData) :
  raw_histogram self band = Ok plot ->
  exists raw binned name lower upper,
    raw_data (HistogramRequests.image Image self) band = Ok raw /\
    OpenSpectraHistogramTools.get_hist_data Ints Floats FloatBins raw = Ok binned /\
    label (HistogramRequests.image Image self) band = Ok name /\
    low_cutoff (HistogramRequests.image Image self) band = Ok lower /\
    high_cutoff (HistogramRequests.image Image self) band = Ok upper /\
    x_data plot = x_data binned /\ bins plot = bins binned /\
    y_data plot = y_data binned /\
    title plot = Some ("Raw " ++ name) /\ color plot = "r" /\
    lower_limit plot = Some lower /\ upper_limit plot = Some upper.
Proof.
  unfold raw_histogram, HistogramRequests.raw_histogram.
  destruct (String.eqb (HistogramRequests.type Image self) "rgb"
            && HistogramRequests.is_None band); [discriminate |].
  destruct (raw_data (HistogramRequests.image Image self) band) as [raw |];
    [| discriminate]. cbn [bind].
  destruct (OpenSpectraHistogramTools.get_hist_data Ints Floats FloatBins raw)
    as [binned |] eqn:Hbinned; [| discriminate]. cbn [bind].
  destruct (label (HistogramRequests.image Image self) band) as [name |];
    [| discriminate]. cbn [bind].
  destruct (low_cutoff (HistogramRequests.image Image self) band) as [lower |];
    [| discriminate]. cbn [bind].
  destruct (high_cutoff (HistogramRequests.image Image self) band) as [upper |];
    [| discriminate]. cbn [bind].
  intros [= <-]. exists raw, binned, name, lower, upper. repeat split. exact Hbinned.
Qed.

(** X19: an adjusted histogram that is returned has the data range, the
    bin count and the flattened data that the binning of the image's
    display data gives; its colour is "b", its title is "Adjusted "
    followed by the label, and it carries no clip limits. *)
Theorem adjusted_histogram_result (self : HistogramRequests.t Image)
    (band : option Band) (plot : HistogramPlotData) :
  adjusted_histogram self band = Ok plot ->
  exists adjusted binned name,
    image_data (HistogramRequests.image Image self) band = Ok adjusted /\
    OpenSpectraHistogramTools.get_hist_data Ints Floats FloatBins adjusted = Ok binned /\
    label (HistogramRequests.image Image self) band = Ok name /\
    x_data plot = x_data binned /\ bins plot = bins binned /\
    y_data plot = y_data binned /\
    title plot = Some ("Adjusted " ++ name) /\ color plot = "b" /\
    lower_limit plot = None /\ upper_limit plot = None.
Proof.
  unfold adjusted_histogram, HistogramRequests.adjusted_histogram.
  destruct (String.eqb (HistogramRequests.type Image self) "rgb"
            && HistogramRequests.is_None band); [discriminate |].
  destruct (image_data (HistogramRequests.image Image self) band) as [adjusted |];
    [| discriminate]. cbn [bind].
  destruct (OpenSpectraHistogramTools.get_hist_data Ints Floats FloatBins adjusted)
    as [binned |] eqn:Hbinned; [| discriminate]. cbn [bind].
  destruct (label (HistogramRequests.image Image self) band) as [name |];
    [| discriminate]. cbn [bind].
  intros [= <-]. destruct (hist_data_has_no_limits adjusted binned Hbinned) as [Hlo Hhi].
  exists adjusted, binned, name. cbn. rewrite Hlo, Hhi. repeat split. exact Hbinned.
Qed.

End HistogramRequestFacts.

Lemma raw_histogram_result_witness :
  exists raw binned name lower upper,
    Samples.data_of (Samples.grey, Samples.bytes) None = Ok raw /\
    OpenSpectraHistogramTools.get_hist_data Examples.Ints Examples.Floats 256 raw
      = Ok binned /\
    Samples.label_of (Samples.grey, Samples.bytes) None = Ok name /\
    Samples.cutoff_low (Samples.grey, Samples.bytes) None = Ok lower /\
    Samples.cutoff_high (Samples.grey, Samples.bytes) None = Ok upper /\
    (SInt 3, SInt 250) = x_data binned /\ SInt 247 = bins binned /\
    [SInt 250; SInt 3; SInt 17] = y_data binned /\
    Some "Raw band" = Some ("Raw " ++ name) /\ "r" = "r" /\
    Some (SInt 0) = Some lower /\ Some (SInt 255) = Some upper.
Proof.
  apply (raw_histogram_result Samples.image nat Samples.data_of Samples.label_of
           Samples.cutoff_low Samples.cutoff_high Examples.Ints Examples.Floats 256
           (HistogramRequests.mk Samples.image (Samples.grey, Samples.bytes) "greyscale")
           None
           (mk_HistogramPlotData (SInt 3, SInt 250) [SInt 250; SInt 3; SInt 17]
              (SInt 247) (Some "X-FixMe") (Some "Y-FixMe") (Some "Raw band") "r" "-"
              None (Some (SInt 0)) (Some (SInt 255)))).
  reflexivity.
Defined.

Lemma adjusted_histogram_result_witness :
  exists adjusted binned name,
    Samples.data_of (Samples.rgb, Samples.bytes) (Some 1%nat) = Ok adjusted /\
    OpenSpectraHistogramTools.get_hist_data Examples.Ints Examples.Floats 256 adjusted
      = Ok binned /\
    Samples.label_of (Samples.rgb, Samples.bytes) (Some 1%nat) = Ok name /\
    (SInt 3, SInt 250) = x_data binned /\ SInt 247 = bins binned /\
    [SInt 250; SInt 3; SInt 17] = y_data binned /\
    Some "Adjusted band" = Some ("Adjusted " ++ name) /\ "b" = "b" /\
    @None scalar = None /\ @None scalar = None.
Proof.
  apply (adjusted_histogram_result Samples.image nat Samples.data_of Samples.label_of
           Examples.Ints Examples.Floats 256
           (HistogramRequests.mk Samples.image (Samples.rgb, Samples.bytes) "rgb")
           (Some 1%nat)
           (mk_HistogramPlotData (SInt 3, SInt 250) [SInt 250; SInt 3; SInt 17]
              (SInt 247) (Some "X-FixMe") (Some "Y-FixMe") (Some "Adjusted band") "b"
              "-" None None None)).
  reflexivity.
Defined.

(** The tools of the example images: an RGB image needs a band, a
    greyscale image does not, and another object is refused. *)
Example histogram_tools_examples :
  (tools <- HistogramRequests.init Samples.image Samples.is_grey Samples.is_rgb
              (Samples.rgb, Samples.bytes) ;;
   HistogramRequests.raw_histogram Samples.image nat Samples.data_of Samples.label_of
     Samples.cutoff_low Samples.cutoff_high Examples.Ints Examples.Floats 256
     tools None) =
    Raise (ValueError "band argument is required when image is RGB") /\
  succeeds
    (tools <- HistogramRequests.init Samples.image Samples.is_grey Samples.is_rgb
                (Samples.grey, Samples.bytes) ;;
     HistogramRequests.raw_histogram Samples.image nat Samples.data_of Samples.label_of
       Samples.cutoff_low Samples.cutoff_high Examples.Ints Examples.Floats 256
       tools None) = true /\
  HistogramRequests.init Samples.image Samples.is_grey Samples.is_rgb
    (Samples.unknown, Samples.bytes) = Raise (TypeError "Unknown image type").
Proof. repeat split. Qed.
